(** * Twitch partner-plus tracker: a shallow embedding of [app/main.py]

    The program is a FastAPI application with three endpoints
    ([GET /points], [POST /set-points], [POST /webhook]) over one
    process-wide dictionary [user_states] and one storage bucket.

    Modelling decisions, all visible in the definitions below:
    - Python values that travel through JSON are the inductive [pyval];
      a Python [float] is a binary64 value of the Standard Library's
      [SpecFloat] (signed zeros, infinities, NaN, finite values), added with
      its round-to-nearest-even [SFadd]; a Python [int] is an unbounded [Z],
      converted to a float by the same rounding, with [OverflowError] when
      the result would not be finite;
    - handlers are computations in a state-and-exception monad [M] over the
      [World] (the dictionary and the bucket); a raised exception keeps the
      mutations made before it, as in Python;
    - the clock and the availability of the storage service are read from a
      per-request environment [Env];
    - a blob holds either the JSON document that [json.dumps] wrote or text
      that [json.loads] rejects; [json.loads (json.dumps v) = v] is built
      into that representation;
    - [print] calls are omitted. *)

From Stdlib Require Import ZArith QArith Qcanon SpecFloat.
From stdpp Require Import base option strings pretty countable gmap fin_maps.

Set Warnings "-register-all".
Local Open Scope Z_scope.
Local Open Scope string_scope.

(** ** Python values *)

Inductive pyval : Type :=
| VNone
| VBool (b : bool)
| VInt (z : Z)
| VFloat (f : spec_float)
| VStr (s : string)
| VList (l : list pyval)
| VDict (d : list (string * pyval)).

(** Exceptions the handlers can meet.  [StorageError] stands for anything
    the storage client raises. *)
Inductive exn : Type :=
| HTTPException (status_code : Z) (detail : string)
| KeyError
| TypeError
| AttributeError
| ValueError
| OverflowError
| StorageError.

Inductive outcome (A : Type) : Type :=
| Returns (a : A)
| Raises (e : exn).
Arguments Returns {A} a.
Arguments Raises {A} e.

(** [bool(v)] *)
Definition truthy (v : pyval) : bool :=
  match v with
  | VNone => false
  | VBool b => b
  | VInt z => negb (Z.eqb z 0)
  | VFloat f => negb (SFeqb f (S754_zero false))
  | VStr s => negb (String.eqb s "")
  | VList l => match l with [] => false | _ => true end
  | VDict d => match d with [] => false | _ => true end
  end.

(** [v == s] for a string literal [s] *)
Definition py_eq_str (v : pyval) (s : string) : bool :=
  match v with
  | VStr t => String.eqb t s
  | _ => false
  end.

Fixpoint dict_lookup (d : list (string * pyval)) (k : string) : option pyval :=
  match d with
  | [] => None
  | (k', v) :: d' => if String.eqb k' k then Some v else dict_lookup d' k
  end.

(** [v.get(k, dflt)]: only a dict has [.get] *)
Definition py_get (v : pyval) (k : string) (dflt : pyval) : outcome pyval :=
  match v with
  | VDict d => Returns (default dflt (dict_lookup d k))
  | _ => Raises AttributeError
  end.

(** [v[k]] for a string literal [k] *)
Definition py_getitem (v : pyval) (k : string) : outcome pyval :=
  match v with
  | VDict d =>
      match dict_lookup d k with
      | Some x => Returns x
      | None => Raises KeyError
      end
  | _ => Raises TypeError
  end.

(** ** Floats

    Python's [float] is IEEE 754 binary64: 53 bits of precision, exponents
    below 1024. *)

Definition float_add : spec_float → spec_float → spec_float := SFadd 53 1024.

(** The binary64 nearest to [m * 2^e] (ties to even); an infinity when
    that is out of range. *)
Definition float_of_dyadic (m e : Z) : spec_float :=
  binary_normalize 53 1024 m e false.

(** The float literal [2.5], that is 5 * 2^-1 with a 53-bit mantissa. *)
Definition two_and_a_half : spec_float :=
  S754_finite false 5629499534213120 (-51).

(** [float(z)] for an [int]: the nearest binary64, and [OverflowError]
    ("int too large to convert to float") when it is not finite. *)
Definition float_of_int (z : Z) : outcome spec_float :=
  match float_of_dyadic z 0 with
  | S754_infinity _ => Raises OverflowError
  | f => Returns f
  end.

(** The operand of a float addition: [None] when the value is not a
    number. *)
Definition py_float (v : pyval) : option (outcome spec_float) :=
  match v with
  | VBool b => Some (float_of_int (if b then 1 else 0))
  | VInt z => Some (float_of_int z)
  | VFloat f => Some (Returns f)
  | _ => None
  end.

(** [a + n] where [n] is an [int] or a [float]: integer addition when both
    are integral; otherwise both operands become floats ([OverflowError]
    for an [int] too large) and are added in binary64; [TypeError] when
    [a] is not a number. *)
Definition py_add (a n : pyval) : outcome pyval :=
  match a, n with
  | VInt x, VInt y => Returns (VInt (x + y))
  | VBool b, VInt y => Returns (VInt ((if b then 1 else 0) + y))
  | VInt x, VBool c => Returns (VInt (x + (if c then 1 else 0)))
  | VBool b, VBool c => Returns (VInt ((if b then 1 else 0) + (if c then 1 else 0)))
  | _, _ =>
      match py_float a, py_float n with
      | Some (Returns x), Some (Returns y) => Returns (VFloat (float_add x y))
      | Some (Raises e), Some _ => Raises e
      | Some (Returns _), Some (Raises e) => Raises e
      | _, _ => Raises TypeError
      end
  end.

(** The rational a finite float denotes. *)
Definition float_value (f : spec_float) : option Q :=
  match f with
  | S754_zero _ => Some 0%Q
  | S754_finite s m e => Some (inject_Z (cond_Zopp s (Zpos m)) * 2 ^ e)%Q
  | S754_infinity _ | S754_nan => None
  end.

(** ** Dictionary keys

    Python looks a key up by [==] and [hash]: strings by content, numbers by
    value ([True == 1 == 1.0]); lists and dicts are unhashable. *)

Inductive ukey : Type :=
| KStr (s : string)
| KNum (q : Qc)
| KInf (negative : bool)
| KNaN
| KNone.

Global Instance ukey_eq_dec : EqDecision ukey.
Proof. solve_decision. Defined.

Global Instance ukey_countable : Countable ukey.
Proof.
  refine (inj_countable'
    (λ k, match k with
          | KStr s => inl s
          | KNum q => inr (inl q)
          | KInf b => inr (inr (Some (Some b)))
          | KNaN => inr (inr (Some None))
          | KNone => inr (inr None)
          end)
    (λ x, match x with
          | inl s => KStr s
          | inr (inl q) => KNum q
          | inr (inr (Some (Some b))) => KInf b
          | inr (inr (Some None)) => KNaN
          | inr (inr None) => KNone
          end) _).
  by intros [].
Defined.

Definition float_key (f : spec_float) : ukey :=
  match f with
  | S754_infinity s => KInf s
  | S754_nan => KNaN
  | _ => KNum (Q2Qc (default 0%Q (float_value f)))
  end.

Definition key_of (v : pyval) : option ukey :=
  match v with
  | VNone => Some KNone
  | VBool b => Some (KNum (Q2Qc (inject_Z (if b then 1 else 0))))
  | VInt z => Some (KNum (Q2Qc (inject_Z z)))
  | VFloat f => Some (float_key f)
  | VStr s => Some (KStr s)
  | VList _ | VDict _ => None
  end.

(** ** Records, blobs and the world *)

(** One entry of [user_states]: the dict
    [{"plus_points": ..., "month": ...}]. *)
Record UserState : Type := mkUserState {
  plus_points : pyval;
  month : pyval;
}.

Inductive blob : Type :=
| JsonText (v : pyval)
| Garbage.

Record World : Type := mkWorld {
  user_states : gmap ukey UserState;
  bucket : gmap string blob;
}.

(** What one request sees of the outside: the UTC month of the clock and
    whether the storage service answers reads and writes. *)
Record Env : Type := mkEnv {
  now : string;
  storage_reads : bool;
  storage_writes : bool;
}.

(** ** The monad of handlers *)

Definition M (A : Type) : Type := Env → World → outcome A * World.

Global Instance M_ret : MRet M := λ A a _ w, (Returns a, w).

Global Instance M_bind : MBind M := λ A B f m env w,
  match m env w with
  | (Returns a, w') => f a env w'
  | (Raises e, w') => (Raises e, w')
  end.

Definition raise {A} (e : exn) : M A := λ _ w, (Raises e, w).

Definition lift {A} (o : outcome A) : M A := λ _ w, (o, w).

(** [try: m  except Exception: h] *)
Definition try_except {A} (m : M A) (h : exn → M A) : M A := λ env w,
  match m env w with
  | (Returns a, w') => (Returns a, w')
  | (Raises e, w') => h e env w'
  end.

Definition get_world : M World := λ _ w, (Returns w, w).

(** ** Requests and responses *)

(** A request as the handler reads it: the headers, [body.decode()]
    ([None] when the bytes are not UTF-8) and [await request.json()]
    ([None] when the body is not a JSON document). *)
Record Request : Type := mkRequest {
  headers : gmap string string;
  body_decode : option string;
  json : option pyval;
}.

Inductive response : Type :=
| StatesBody (states : gmap ukey UserState)
| PointsUpdated (user_id : string) (value : Z)
| JSONResponse (content : pyval)
| PointsAdded (amount : pyval) (user_id : pyval)
| Unhandled.

Fixpoint is_ascii (s : string) : bool :=
  match s with
  | EmptyString => true
  | String c s' => (Ascii.N_of_ascii c <? 128)%N && is_ascii s'
  end.

(** [hmac.compare_digest(a, b)] on [str] arguments: both must be ASCII *)
Definition compare_digest (a b : string) : option bool :=
  if is_ascii a && is_ascii b then Some (String.eqb a b) else None.

(** ** Sample data for the evaluations at the end of the file *)

(** A stand-in for [str] on the scalars that can be dictionary keys. *)
Definition scalar_str (v : pyval) : string :=
  match v with
  | VNone => "None"
  | VBool true => "True"
  | VBool false => "False"
  | VInt z => pretty z
  | _ => ""
  end.

(** A stand-in for the digest: any function of the key and the message
    does, the theorems hold for all of them. *)
Definition toy_digest (key message : string) : string :=
  pretty (N.of_nat (String.length key + String.length message)).

Definition env_may : Env := mkEnv "2024-05" true true.
Definition env_june : Env := mkEnv "2024-06" true true.
Definition env_june_offline : Env := mkEnv "2024-06" false false.

Definition empty_world : World := mkWorld ∅ ∅.

(** The record of the specification's rollover example. *)
Definition world_may : World :=
  mkWorld {[KStr "u1" := mkUserState (VInt 7) (VStr "2024-05")]} ∅.

(** The same total accumulated under the current month. *)
Definition world_june : World :=
  mkWorld {[KStr "u1" := mkUserState (VInt 7) (VStr "2024-06")]} ∅.

(** The same record in the bucket only, as after a restart. *)
Definition world_restarted : World :=
  mkWorld ∅
    {["state_u1.json" :=
        JsonText (VDict [("plus_points", VInt 7); ("month", VStr "2024-05")])]}.

Definition signed_headers (secret message_type body : string)
  : gmap string string :=
  {[ "Twitch-Eventsub-Message-Id" := "m1";
     "Twitch-Eventsub-Message-Timestamp" := "t1";
     "Twitch-Eventsub-Message-Signature"
       := "sha256=" ++ toy_digest secret ("m1" ++ "t1" ++ body);
     "Twitch-Eventsub-Message-Type" := message_type ]}.

(** A tier-3000 subscription notification for the broadcaster [u1]. *)
Definition request_tier3000 : Request :=
  mkRequest (signed_headers "s3cr3t" "notification" "sub")
            (Some "sub")
            (Some (VDict [("event",
                           VDict [("broadcaster_user_id", VStr "u1");
                                  ("tier", VStr "3000")])])).

(** A tier-2000 notification for the same broadcaster. *)
Definition request_tier2000 : Request :=
  mkRequest (signed_headers "s3cr3t" "notification" "sub")
            (Some "sub")
            (Some (VDict [("event",
                           VDict [("broadcaster_user_id", VStr "u1");
                                  ("tier", VStr "2000")])])).


(** The same notification without its signature header. *)
Definition request_unsigned : Request :=
  mkRequest (delete "Twitch-Eventsub-Message-Signature"
               (signed_headers "s3cr3t" "notification" "sub"))
            (Some "sub")
            (json request_tier3000).

(** A notification whose event names no broadcaster. *)
Definition request_no_broadcaster : Request :=
  mkRequest (signed_headers "s3cr3t" "notification" "sub")
            (Some "sub")
            (Some (VDict [("event", VDict [("tier", VStr "1000")])])).

(** A notification whose broadcaster id is a JSON array. *)
Definition request_list_broadcaster : Request :=
  mkRequest (signed_headers "s3cr3t" "notification" "sub")
            (Some "sub")
            (Some (VDict [("event",
                           VDict [("broadcaster_user_id", VList [VInt 1]);
                                  ("tier", VStr "1000")])])).

(** A revocation message: neither a handshake nor a notification. *)
Definition request_revocation : Request :=
  mkRequest (signed_headers "s3cr3t" "revocation" "bye")
            (Some "bye")
            (Some (VDict [("subscription", VDict [])])).

(** A handshake whose payload has no challenge. *)
Definition request_handshake_no_challenge : Request :=
  mkRequest (signed_headers "s3cr3t" "webhook_callback_verification" "hello")
            (Some "hello")
            (Some (VDict [("subscription", VDict [])])).

(** A durable record of another month with a total that is not a number. *)
Definition world_text_total : World :=
  mkWorld ∅
    {["state_u1.json" :=
        JsonText (VDict [("plus_points", VStr "seven"); ("month", VStr "2024-06")])]}.

(** A blob that [json.loads] rejects. *)
Definition world_garbage : World := mkWorld ∅ {["state_u1.json" := Garbage]}.


Definition env_june_blind : Env := mkEnv "2024-06" false true.

(** ** The program *)

Section Program.

(** The configuration read at start-up and the two library functions the
    program calls whose results the development never inspects. *)
Context (EVENTSUB_SECRET : string).
Context (hmac_sha256_hexdigest : string → string → string).
Context (py_str : pyval → string).

Definition get_current_month : M string := λ env w, (Returns (now env), w).

(** ["state_{user_id}.json".format(user_id=user_id)] *)
Definition get_state_file (user_id : pyval) : string :=
  "state_" ++ match user_id with VStr s => s | v => py_str v end ++ ".json".

(** [user_id in user_states] *)
Definition contains (user_id : pyval) : M bool := λ _ w,
  match key_of user_id with
  | Some k => (Returns (bool_decide (is_Some (user_states w !! k))), w)
  | None => (Raises TypeError, w)
  end.

(** [user_states[user_id]] *)
Definition get_state (user_id : pyval) : M UserState := λ _ w,
  match key_of user_id with
  | Some k =>
      match user_states w !! k with
      | Some st => (Returns st, w)
      | None => (Raises KeyError, w)
      end
  | None => (Raises TypeError, w)
  end.

(** [user_states[user_id] = st] *)
Definition set_state (user_id : pyval) (st : UserState) : M () := λ _ w,
  match key_of user_id with
  | Some k => (Returns (), mkWorld (<[k := st]> (user_states w)) (bucket w))
  | None => (Raises TypeError, w)
  end.

(** [blob.exists()] *)
Definition blob_exists (name : string) : M bool := λ env w,
  if storage_reads env
  then (Returns (bool_decide (is_Some (bucket w !! name))), w)
  else (Raises StorageError, w).

(** [json.loads(blob.download_as_string())] *)
Definition blob_download_json (name : string) : M pyval := λ env w,
  if storage_reads env
  then match bucket w !! name with
       | Some (JsonText v) => (Returns v, w)
       | Some Garbage => (Raises ValueError, w)
       | None => (Raises StorageError, w)
       end
  else (Raises StorageError, w).

(** [blob.upload_from_string(content)] *)
Definition blob_upload (name : string) (content : blob) : M () := λ env w,
  if storage_writes env
  then (Returns (), mkWorld (user_states w) (<[name := content]> (bucket w)))
  else (Raises StorageError, w).

(** [json.dumps(user_states[user_id])] *)
Definition json_dumps (st : UserState) : blob :=
  JsonText (VDict [("plus_points", plus_points st); ("month", month st)]).

Definition load_user_state (user_id : pyval) : M () :=
  try_except
    (found ← blob_exists (get_state_file user_id);
     if (found : bool) then
       data ← blob_download_json (get_state_file user_id);
       points ← lift (py_get data "plus_points" (VInt 0));
       current ← get_current_month;
       m ← lift (py_get data "month" (VStr current));
       set_state user_id (mkUserState points m)
     else
       current ← get_current_month;
       set_state user_id (mkUserState (VInt 0) (VStr current)))
    (λ _,
       current ← get_current_month;
       set_state user_id (mkUserState (VInt 0) (VStr current))).

Definition save_user_state (user_id : pyval) : M () :=
  try_except
    (st ← get_state user_id;
     blob_upload (get_state_file user_id) (json_dumps st))
    (λ _, mret ()).

Definition verify_signature (request : Request) : bool :=
  if String.eqb EVENTSUB_SECRET "" then true
  else
    default false
      (message_id ← headers request !! "Twitch-Eventsub-Message-Id";
       timestamp ← headers request !! "Twitch-Eventsub-Message-Timestamp";
       body ← body_decode request;
       let message := message_id ++ timestamp ++ body in
       let signature := hmac_sha256_hexdigest EVENTSUB_SECRET message in
       let expected := "sha256=" ++ signature in
       given ← headers request !! "Twitch-Eventsub-Message-Signature";
       compare_digest given expected).

(** The idiom [if user_id not in user_states: load_user_state(user_id)],
    lines 76-77, 84-85 and 109-110. *)
Definition ensure_loaded (user_id : pyval) : M () :=
  present ← contains user_id;
  if (present : bool) then mret () else load_user_state user_id.

Definition get_points (user_id : option string) : M response :=
  match user_id with
  | Some u =>
      if truthy (VStr u) then
        ensure_loaded (VStr u);;
        st ← get_state (VStr u);
        mret (StatesBody {[KStr u := st]})
      else
        w ← get_world; mret (StatesBody (user_states w))
  | None => w ← get_world; mret (StatesBody (user_states w))
  end.

Definition set_points (user_id : string) (value : Z) : M response :=
  ensure_loaded (VStr user_id);;
  st ← get_state (VStr user_id);
  set_state (VStr user_id) (mkUserState (VInt value) (month st));;
  st ← get_state (VStr user_id);
  current ← get_current_month;
  set_state (VStr user_id) (mkUserState (plus_points st) (VStr current));;
  save_user_state (VStr user_id);;
  mret (PointsUpdated user_id value).

(** Lines 112-115: the month rollover of the record of [user_id]. *)
Definition rollover_if_needed (user_id : pyval) : M () :=
  current ← get_current_month;
  st ← get_state user_id;
  if negb (py_eq_str (month st) current) then
    st ← get_state user_id;
    set_state user_id (mkUserState (VInt 0) (month st));;
    st ← get_state user_id;
    set_state user_id (mkUserState (plus_points st) (VStr current))
  else mret ().

(** Line 118: the conditional expression that maps a tier to its amount;
    [tier] is [None] when the event has no ["tier"] field. *)
Definition tier_amount (tier : pyval) : pyval :=
  if py_eq_str tier "1000" then VInt 1
  else if py_eq_str tier "2000" then VInt 2
  else if py_eq_str tier "3000" then VFloat two_and_a_half
  else VInt 0.

(** Line 119: [user_states[user_id]["plus_points"] += amount] *)
Definition add_points (user_id amount : pyval) : M () :=
  st ← get_state user_id;
  total ← lift (py_add (plus_points st) amount);
  set_state user_id (mkUserState total (month st)).

Definition handle_webhook (request : Request) : M response :=
  if negb (verify_signature request) then
    raise (HTTPException 403 "Invalid signature")
  else
    payload ← lift (from_option Returns (Raises ValueError) (json request));
    let msg_type := headers request !! "Twitch-Eventsub-Message-Type" in
    if bool_decide (msg_type = Some "webhook_callback_verification") then
      challenge ← lift (py_getitem payload "challenge");
      mret (JSONResponse challenge)
    else if bool_decide (msg_type = Some "notification") then
      event ← lift (py_get payload "event" (VDict []));
      user_id ← lift (py_get event "broadcaster_user_id" VNone);
      if negb (truthy user_id) then
        raise (HTTPException 400 "Missing broadcaster_user_id")
      else
        ensure_loaded user_id;;
        rollover_if_needed user_id;;
        tier ← lift (py_get event "tier" VNone);
        let amount := tier_amount tier in
        add_points user_id amount;;
        save_user_state user_id;;
        mret (PointsAdded amount user_id)
    else mret Unhandled.

(** ** The body of a [JSONResponse]

    [JSONResponse(content).body] is [json.dumps(content, ensure_ascii=False,
    allow_nan=False, separators=(",", ":"))], encoded in UTF-8; strings are
    sequences of UTF-8 bytes here, so the encoding step is the identity. *)







(** The router: the three endpoints of [app]. *)
Inductive endpoint : Type :=
| GetPoints (user_id : option string)
| SetPoints (user_id : string) (value : Z)
| Webhook (request : Request).

Definition serve (r : endpoint) : M response :=
  match r with
  | GetPoints user_id => get_points user_id
  | SetPoints user_id value => set_points user_id value
  | Webhook request => handle_webhook request
  end.

(** ** Vocabulary of the specification *)

(** [fetch(userId) -> record | absent]: the durable record when the storage
    answers and the blob is a JSON object, absent otherwise. *)
Definition spec_fetch (env : Env) (w : World) (name : string)
  : option (list (string * pyval)) :=
  if storage_reads env then
    match bucket w !! name with
    | Some (JsonText (VDict d)) => Some d
    | _ => None
    end
  else None.

(** The record [ensureLoaded] creates, in the words of the specification:
    the durable fields verbatim when the record is found, a missing field
    defaulting to 0 or to the current period; 0 and the current period
    when it is absent or the fetch fails. *)
Definition spec_loaded_record (env : Env) (w : World) (name : string)
  : UserState :=
  match spec_fetch env w name with
  | Some d =>
      mkUserState (default (VInt 0) (dict_lookup d "plus_points"))
                  (default (VStr (now env)) (dict_lookup d "month"))
  | None => mkUserState (VInt 0) (VStr (now env))
  end.

(** A request that reaches the accumulator: accepted signature, message
    type [notification], and an event with a truthy broadcaster id. *)
Definition is_notification (request : Request) (user_id tier : pyval) : Prop :=
  verify_signature request = true ∧
  headers request !! "Twitch-Eventsub-Message-Type" = Some "notification" ∧
  ∃ payload event,
    json request = Some payload ∧
    py_get payload "event" (VDict []) = Returns event ∧
    py_get event "broadcaster_user_id" VNone = Returns user_id ∧
    truthy user_id = true ∧
    py_get event "tier" VNone = Returns tier.

(** Lines 109-121 for a given broadcaster id and tier. *)
Definition accumulate (user_id tier : pyval) : M response :=
  ensure_loaded user_id;;
  rollover_if_needed user_id;;
  add_points user_id (tier_amount tier);;
  save_user_state user_id;;
  mret (PointsAdded (tier_amount tier) user_id).


(** The signature header is present and is the digest of the message id,
    the timestamp and the decoded body under the shared secret. *)
Definition signature_valid (request : Request) : Prop :=
  ∃ message_id timestamp body,
    headers request !! "Twitch-Eventsub-Message-Id" = Some message_id ∧
    headers request !! "Twitch-Eventsub-Message-Timestamp" = Some timestamp ∧
    body_decode request = Some body ∧
    headers request !! "Twitch-Eventsub-Message-Signature"
      = Some ("sha256=" ++
              hmac_sha256_hexdigest EVENTSUB_SECRET
                (message_id ++ timestamp ++ body)).

(** A total that is a number and is not negative. *)
Definition nonneg (v : pyval) : Prop :=
  match v with
  | VBool _ => True
  | VInt z => 0 <= z
  | VFloat f => SFleb (S754_zero false) f = true
  | _ => False
  end.

Definition blob_nonneg (b : blob) : Prop :=
  match b with
  | JsonText (VDict d) =>
      match dict_lookup d "plus_points" with
      | Some v => nonneg v
      | None => True
      end
  | _ => True
  end.

(** Every cached total and every durable total is non-negative. *)
Definition totals_nonneg (w : World) : Prop :=
  map_Forall (λ _ st, nonneg (plus_points st)) (user_states w) ∧
  map_Forall (λ _ b, blob_nonneg b) (bucket w).

(** [w'] differs from [w] at most in the cache entry [k] and the blob
    [name]. *)
Definition frame_except (k : ukey) (name : string) (w w' : World) : Prop :=
  (∀ k', k' ≠ k → user_states w' !! k' = user_states w !! k') ∧
  (∀ n, n ≠ name → bucket w' !! n = bucket w !! n).

(** The status codes of client errors. *)
Definition client_error (e : exn) : Prop :=
  match e with
  | HTTPException code _ => 400 <= code < 500
  | _ => False
  end.

(** The record of [user_id] once [ensure_loaded] has run: the cached one,
    or the one [load_user_state] builds. *)
Definition loaded_record (env : Env) (w : World) (user_id : pyval) (k : ukey)
  : UserState :=
  default (spec_loaded_record env w (get_state_file user_id))
          (user_states w !! k).

(** A record once [rollover_if_needed] has run. *)
Definition rolled_over (env : Env) (st : UserState) : UserState :=
  if py_eq_str (month st) (now env) then st
  else mkUserState (VInt 0) (VStr (now env)).

(** ** Equations of the program's functions *)

Ltac munfold :=
  unfold accumulate, ensure_loaded, rollover_if_needed, add_points,
    save_user_state, load_user_state;
  unfold mbind, mret, M_bind, M_ret, raise, lift, try_except, get_world,
    get_current_month, contains, get_state, set_state,
    blob_exists, blob_download_json, blob_upload;
  cbn beta.

Lemma load_user_state_eq uid k env w :
  key_of uid = Some k →
  load_user_state uid env w =
    (Returns (),
     mkWorld (<[k := spec_loaded_record env w (get_state_file uid)]> (user_states w))
             (bucket w)).
Proof.
  intros Hk. unfold spec_loaded_record, spec_fetch. munfold.
  destruct (storage_reads env) eqn:Hr; simpl; [|by rewrite Hk].
  destruct (bucket w !! get_state_file uid) as [[v|]|] eqn:Hb; simpl;
    rewrite ?Hr, ?Hb; simpl; [|by rewrite Hk..].
  destruct v; simpl; by rewrite Hk.
Qed.

Lemma ensure_loaded_hit uid k st env w :
  key_of uid = Some k →
  user_states w !! k = Some st →
  ensure_loaded uid env w = (Returns (), w).
Proof. intros Hk Hst. munfold. by rewrite Hk, Hst. Qed.

Lemma ensure_loaded_miss uid k env w :
  key_of uid = Some k →
  user_states w !! k = None →
  ensure_loaded uid env w = load_user_state uid env w.
Proof.
  intros Hk Hst. unfold ensure_loaded.
  unfold mbind, M_bind, contains. by rewrite Hk, Hst.
Qed.

Lemma ensure_loaded_unhashable uid env w :
  key_of uid = None →
  ensure_loaded uid env w = (Raises TypeError, w).
Proof. intros Hk. munfold. by rewrite Hk. Qed.

Lemma rollover_if_needed_eq uid k st env w :
  key_of uid = Some k →
  user_states w !! k = Some st →
  rollover_if_needed uid env w =
    (Returns (),
     if py_eq_str (month st) (now env) then w
     else mkWorld (<[k := mkUserState (VInt 0) (VStr (now env))]> (user_states w))
                  (bucket w)).
Proof.
  intros Hk Hst. munfold. rewrite Hk, Hst.
  destruct (py_eq_str (month st) (now env)); simpl; [done|].
  rewrite Hst; simpl. rewrite lookup_insert_eq; simpl.
  by rewrite insert_insert_eq.
Qed.

Lemma add_points_eq uid k st amount env w :
  key_of uid = Some k →
  user_states w !! k = Some st →
  add_points uid amount env w =
    match py_add (plus_points st) amount with
    | Returns total =>
        (Returns (),
         mkWorld (<[k := mkUserState total (month st)]> (user_states w)) (bucket w))
    | Raises e => (Raises e, w)
    end.
Proof.
  intros Hk Hst. munfold. rewrite Hk, Hst.
  by destruct (py_add (plus_points st) amount).
Qed.

Lemma save_user_state_eq uid k st env w :
  key_of uid = Some k →
  user_states w !! k = Some st →
  save_user_state uid env w =
    (Returns (),
     if storage_writes env
     then mkWorld (user_states w)
                  (<[get_state_file uid := json_dumps st]> (bucket w))
     else w).
Proof.
  intros Hk Hst. munfold. rewrite Hk, Hst.
  by destruct (storage_writes env).
Qed.

Lemma handle_webhook_rejected request env w :
  verify_signature request = false →
  handle_webhook request env w =
    (Raises (HTTPException 403 "Invalid signature"), w).
Proof. intros Hv. unfold handle_webhook. by rewrite Hv. Qed.

Lemma handle_webhook_notification request user_id tier env w :
  is_notification request user_id tier →
  handle_webhook request env w = accumulate user_id tier env w.
Proof.
  intros (Hv & Hty & payload & event & Hj & Hev & Hid & Htr & Htier).
  unfold handle_webhook, accumulate. rewrite Hv, Hj, Hty; simpl.
  unfold mbind, M_bind, lift, mret, M_ret. rewrite Hev, Hid, Htr; simpl.
  destruct (ensure_loaded user_id env w) as [[[]|e] w1]; [|done].
  destruct (rollover_if_needed user_id env w1) as [[[]|e] w2]; [|done].
  by rewrite Htier.
Qed.


(** A webhook request either leaves the world as it is or runs the
    accumulator for the broadcaster of its event. *)
Lemma handle_webhook_cases request env w :
  (handle_webhook request env w).2 = w ∨
  ∃ user_id tier,
    is_notification request user_id tier ∧
    handle_webhook request env w = accumulate user_id tier env w.
Proof.
  destruct (verify_signature request) eqn:Hv;
    [|left; by rewrite handle_webhook_rejected].
  destruct (json request) as [payload|] eqn:Hj;
    [|left; unfold handle_webhook; by rewrite Hv, Hj].
  destruct (headers request !! "Twitch-Eventsub-Message-Type") as [ty|] eqn:Hty;
    [|left; unfold handle_webhook; by rewrite Hv, Hj, Hty].
  destruct (decide (ty = "webhook_callback_verification")) as [->|Hn1].
  { left. unfold handle_webhook. rewrite Hv, Hj, Hty; simpl.
    unfold mbind, M_bind, lift, mret, M_ret.
    by destruct (py_getitem payload "challenge"). }
  destruct (decide (ty = "notification")) as [->|Hn2].
  2:{ left. unfold handle_webhook. rewrite Hv, Hj, Hty; simpl.
      rewrite !bool_decide_eq_false_2 by congruence. done. }
  destruct (py_get payload "event" (VDict [])) as [event|e] eqn:Hev.
  2:{ left. unfold handle_webhook. rewrite Hv, Hj, Hty; simpl.
      unfold mbind, M_bind, lift. by rewrite Hev. }
  destruct (py_get event "broadcaster_user_id" VNone) as [uid|e] eqn:Hid.
  2:{ left. unfold handle_webhook. rewrite Hv, Hj, Hty; simpl.
      unfold mbind, M_bind, lift. by rewrite Hev, Hid. }
  destruct (truthy uid) eqn:Htr.
  2:{ left. unfold handle_webhook. rewrite Hv, Hj, Hty; simpl.
      unfold mbind, M_bind, lift. by rewrite Hev, Hid, Htr. }
  destruct (py_get event "tier" VNone) as [tier|e] eqn:Htier.
  2:{ destruct event; discriminate. }
  right. exists uid, tier.
  assert (is_notification request uid tier) as Hn.
  { split; [done|]. split; [done|]. by exists payload, event. }
  split; [done|]. by apply handle_webhook_notification.
Qed.

Lemma ensure_loaded_eq uid k env w :
  key_of uid = Some k →
  ensure_loaded uid env w =
    (Returns (),
     mkWorld (<[k := loaded_record env w uid k]> (user_states w)) (bucket w)).
Proof.
  intros Hk. unfold loaded_record.
  destruct (user_states w !! k) as [st|] eqn:Hst; simpl.
  - rewrite (ensure_loaded_hit uid k st) by done.
    rewrite insert_id by done. by destruct w.
  - rewrite (ensure_loaded_miss uid k) by done.
    by apply load_user_state_eq.
Qed.

Lemma accumulate_eq uid k tier env w :
  key_of uid = Some k →
  accumulate uid tier env w =
    let st := rolled_over env (loaded_record env w uid k) in
    match py_add (plus_points st) (tier_amount tier) with
    | Returns total =>
        (Returns (PointsAdded (tier_amount tier) uid),
         mkWorld
           (<[k := mkUserState total (month st)]> (user_states w))
           (if storage_writes env
            then <[get_state_file uid := json_dumps (mkUserState total (month st))]>
                   (bucket w)
            else bucket w))
    | Raises e =>
        (Raises e, mkWorld (<[k := st]> (user_states w)) (bucket w))
    end.
Proof.
  intros Hk. unfold accumulate.
  unfold mbind at 1, M_bind at 1. rewrite (ensure_loaded_eq uid k) by done.
  set (st1 := loaded_record env w uid k).
  unfold mbind at 1, M_bind at 1.
  rewrite (rollover_if_needed_eq uid k st1)
    by (done || apply lookup_insert_eq).
  assert ((if py_eq_str (month st1) (now env)
           then mkWorld (<[k:=st1]> (user_states w)) (bucket w)
           else mkWorld (<[k:=mkUserState (VInt 0) (VStr (now env))]>
                           (<[k:=st1]> (user_states w))) (bucket w))
          = mkWorld (<[k := rolled_over env st1]> (user_states w)) (bucket w))
    as Hroll.
  { unfold rolled_over. destruct (py_eq_str _ _); [done|].
    by rewrite insert_insert_eq. }
  cbn [user_states bucket]. rewrite Hroll. clear Hroll.
  set (st2 := rolled_over env st1). cbn zeta.
  unfold mbind at 1, M_bind at 1.
  rewrite (add_points_eq uid k st2) by (done || apply lookup_insert_eq).
  destruct (py_add (plus_points st2) (tier_amount tier)) as [total|e]; [|done].
  cbn [user_states bucket]. rewrite insert_insert_eq.
  unfold mbind at 1, M_bind at 1.
  rewrite (save_user_state_eq uid k (mkUserState total (month st2)))
    by (done || apply lookup_insert_eq).
  cbn [user_states bucket]. unfold mret, M_ret.
  by destruct (storage_writes env).
Qed.

Lemma accumulate_unhashable uid tier env w :
  key_of uid = None →
  accumulate uid tier env w = (Raises TypeError, w).
Proof.
  intros Hk. unfold accumulate. unfold mbind at 1, M_bind at 1.
  by rewrite ensure_loaded_unhashable.
Qed.

Lemma set_points_eq u value env w :
  set_points u value env w =
    let st := mkUserState (VInt value) (VStr (now env)) in
    (Returns (PointsUpdated u value),
     mkWorld (<[KStr u := st]> (user_states w))
             (if storage_writes env
              then <[get_state_file (VStr u) := json_dumps st]> (bucket w)
              else bucket w)).
Proof.
  unfold set_points. unfold mbind at 1, M_bind at 1.
  rewrite (ensure_loaded_eq (VStr u) (KStr u)) by done.
  munfold.
  repeat (progress (simpl; rewrite ?lookup_insert_eq, ?insert_insert_eq)).
  by destruct (storage_writes env).
Qed.

Lemma get_points_eq u env w :
  u ≠ "" →
  get_points (Some u) env w =
    let st := loaded_record env w (VStr u) (KStr u) in
    (Returns (StatesBody {[KStr u := st]}),
     mkWorld (<[KStr u := st]> (user_states w)) (bucket w)).
Proof.
  intros Hu. unfold get_points.
  assert (truthy (VStr u) = true) as ->.
  { simpl. by destruct u. }
  unfold mbind at 1, M_bind at 1.
  rewrite (ensure_loaded_eq (VStr u) (KStr u)) by done.
  munfold. simpl. by rewrite lookup_insert_eq.
Qed.

Lemma get_points_all user_id env w :
  user_id = None ∨ user_id = Some "" →
  get_points user_id env w = (Returns (StatesBody (user_states w)), w).
Proof. by intros [-> | ->]. Qed.

(** ** Auxiliary facts about values *)

Lemma py_eq_str_true v s : py_eq_str v s = true ↔ v = VStr s.
Proof.
  destruct v; simpl; try (split; [discriminate|congruence]).
  rewrite String.eqb_eq. split; congruence.
Qed.

Lemma py_eq_str_false v s : py_eq_str v s = false ↔ v ≠ VStr s.
Proof.
  rewrite <- py_eq_str_true. destruct (py_eq_str v s); split; congruence.
Qed.

Lemma tier_amount_cases tier :
  tier_amount tier = VInt 1 ∨ tier_amount tier = VInt 2 ∨
  tier_amount tier = VFloat two_and_a_half ∨ tier_amount tier = VInt 0.
Proof.
  unfold tier_amount.
  destruct (py_eq_str tier "1000"); [tauto|].
  destruct (py_eq_str tier "2000"); [tauto|].
  destruct (py_eq_str tier "3000"); tauto.
Qed.

Lemma py_add_zero_amount tier :
  py_add (VInt 0) (tier_amount tier) = Returns (tier_amount tier).
Proof.
  destruct (tier_amount_cases tier) as [-> | [-> | [-> | ->]]]; reflexivity.
Qed.

Lemma nonneg_int z : 0 <= z → nonneg (VInt z).
Proof. intros Hz. exact Hz. Qed.

Lemma nonneg_tier_amount tier : nonneg (tier_amount tier).
Proof.
  destruct (tier_amount_cases tier) as [-> | [-> | [-> | ->]]];
    simpl; (lia || reflexivity).
Qed.

(** Rounding a non-negative mantissa never gives a negative float or a
    NaN. *)
Lemma shr_1_nonneg mrs : 0 <= shr_m mrs → 0 <= shr_m (shr_1 mrs).
Proof.
  destruct mrs as [m r s]. simpl. destruct m as [|[p|p|]|p]; simpl; lia.
Qed.

Lemma iter_pos_shr_1_nonneg p mrs :
  0 <= shr_m mrs → 0 <= shr_m (SpecFloat.iter_pos shr_1 p mrs).
Proof.
  revert mrs. induction p as [p IH|p IH|]; intros mrs Hm; simpl.
  - apply IH, IH. by apply shr_1_nonneg.
  - by apply IH, IH.
  - by apply shr_1_nonneg.
Qed.

Lemma shr_fexp_nonneg m e l :
  0 <= m → 0 <= shr_m (shr_fexp 53 1024 m e l).1.
Proof.
  intros Hm. unfold shr_fexp, shr.
  assert (0 <= shr_m (shr_record_of_loc m l)) as H0.
  { by destruct l as [|[]]. }
  destruct (SpecFloat.fexp 53 1024 (Zdigits2 m + e) - e); simpl; try done.
  by apply iter_pos_shr_1_nonneg.
Qed.

Lemma round_nearest_even_nonneg m l : 0 <= m → 0 <= round_nearest_even m l.
Proof.
  intros Hm. destruct l as [|[]]; simpl; try destruct (Z.even m); lia.
Qed.

Lemma binary_round_aux_nonneg m e l :
  0 <= m →
  SFleb (S754_zero false) (binary_round_aux 53 1024 false m e l) = true.
Proof.
  intros Hm. unfold binary_round_aux.
  pose proof (shr_fexp_nonneg m e l Hm) as H1.
  destruct (shr_fexp 53 1024 m e l) as [mrs' e']. simpl in H1.
  pose proof (shr_fexp_nonneg _ e' loc_Exact
                (round_nearest_even_nonneg _ (loc_of_shr_record mrs') H1)) as H2.
  destruct (shr_fexp 53 1024 _ e' loc_Exact) as [mrs'' e'']. simpl in H2.
  destruct (shr_m mrs''); [done| |lia].
  by destruct (Z.leb e'' _).
Qed.

Lemma float_of_dyadic_nonneg m e :
  0 <= m → SFleb (S754_zero false) (float_of_dyadic m e) = true.
Proof.
  intros Hm. unfold float_of_dyadic, binary_normalize.
  destruct m as [|p|p]; [done| |lia].
  unfold binary_round. destruct (shl_align p e _) as [mz ez].
  by apply binary_round_aux_nonneg.
Qed.

Lemma float_nonneg_cases f :
  SFleb (S754_zero false) f = true ↔
  match f with
  | S754_zero _ | S754_infinity false | S754_finite false _ _ => True
  | _ => False
  end.
Proof. destruct f as [[]|[]| |[] m e]; simpl; split; try done. Qed.

Lemma float_add_nonneg x y :
  SFleb (S754_zero false) x = true →
  SFleb (S754_zero false) y = true →
  SFleb (S754_zero false) (float_add x y) = true.
Proof.
  intros Hx Hy. apply float_nonneg_cases in Hx, Hy.
  destruct x as [[]|[]| |[] mx ex], y as [[]|[]| |[] my ey]; try done.
  unfold float_add, SFadd, cond_Zopp.
  apply float_of_dyadic_nonneg. lia.
Qed.

Lemma float_of_int_nonneg z f :
  0 <= z → float_of_int z = Returns f → SFleb (S754_zero false) f = true.
Proof.
  intros Hz. unfold float_of_int.
  pose proof (float_of_dyadic_nonneg z 0 Hz) as H.
  destruct (float_of_dyadic z 0); intros [= <-]; done.
Qed.

Lemma py_float_nonneg v f :
  nonneg v → py_float v = Some (Returns f) →
  SFleb (S754_zero false) f = true.
Proof.
  destruct v as [|b|z|g| | |]; simpl; try done.
  - intros _ [= H].
    apply (float_of_int_nonneg (if b then 1 else 0)); [by destruct b|done].
  - intros Hz [= H]. by apply (float_of_int_nonneg z).
  - by intros Hg [= <-].
Qed.

(** An addition of non-negative numbers that returns gives a non-negative
    number. *)
Lemma py_add_nonneg a n total :
  nonneg a → nonneg n → py_add a n = Returns total → nonneg total.
Proof.
  intros Ha Hn.
  assert (match py_float a, py_float n with
          | Some (Returns x), Some (Returns y) => Returns (VFloat (float_add x y))
          | Some (Raises e), Some _ => Raises e
          | Some (Returns _), Some (Raises e) => Raises e
          | _, _ => Raises TypeError
          end = Returns total → nonneg total) as Hfl.
  { destruct (py_float a) as [[x|e]|] eqn:Hx; try done;
      destruct (py_float n) as [[y|e']|] eqn:Hy; try done.
    intros [= <-]. simpl. apply float_add_nonneg.
    - by apply (py_float_nonneg a).
    - by apply (py_float_nonneg n). }
  destruct a as [|b|x|f| | |], n as [|c|y|g| | |]; try exact Hfl;
    simpl in *; intros [= <-]; simpl; try destruct b; try destruct c; lia.
Qed.

(** ** Invariant and frame lemmas *)

Lemma blob_nonneg_json_dumps st :
  nonneg (plus_points st) → blob_nonneg (json_dumps st).
Proof. intros Hst. exact Hst. Qed.

Lemma nonneg_loaded_record env w uid k :
  totals_nonneg w → nonneg (plus_points (loaded_record env w uid k)).
Proof.
  intros [Hc Hb]. unfold loaded_record.
  destruct (user_states w !! k) as [st|] eqn:Hst; simpl.
  { by apply (Hc k st). }
  unfold spec_loaded_record, spec_fetch.
  destruct (storage_reads env); [|apply nonneg_int; lia].
  destruct (bucket w !! get_state_file uid) as [[v|]|] eqn:Hv;
    try (apply nonneg_int; lia).
  destruct v; try (apply nonneg_int; lia).
  apply Hb in Hv. simpl in *.
  destruct (dict_lookup d "plus_points"); [done|apply nonneg_int; lia].
Qed.

Lemma nonneg_rolled_over env st :
  nonneg (plus_points st) → nonneg (plus_points (rolled_over env st)).
Proof.
  intros Hst. unfold rolled_over.
  destruct (py_eq_str (month st) (now env)); [done|apply nonneg_int; lia].
Qed.

Lemma totals_nonneg_update w k st name :
  totals_nonneg w →
  nonneg (plus_points st) →
  ∀ writes : bool,
    totals_nonneg
      (mkWorld (<[k := st]> (user_states w))
               (if writes then <[name := json_dumps st]> (bucket w) else bucket w)).
Proof.
  intros [Hc Hb] Hst writes. split; simpl.
  - by apply map_Forall_insert_2.
  - destruct writes; [|done].
    apply map_Forall_insert_2; [|done]. by apply blob_nonneg_json_dumps.
Qed.

Lemma totals_nonneg_accumulate uid tier env w :
  totals_nonneg w → totals_nonneg (accumulate uid tier env w).2.
Proof.
  intros Hw. destruct (key_of uid) as [k|] eqn:Hk.
  2:{ by rewrite accumulate_unhashable. }
  rewrite (accumulate_eq uid k) by done. cbn zeta.
  pose proof (nonneg_rolled_over env _ (nonneg_loaded_record env w uid k Hw))
    as Hst.
  destruct (py_add _ _) as [total|e] eqn:Hadd.
  - apply totals_nonneg_update; [done|].
    by apply (py_add_nonneg _ _ _ Hst (nonneg_tier_amount tier)).
  - by apply (totals_nonneg_update w k _ "" Hw Hst false).
Qed.

Lemma frame_except_refl k name w : frame_except k name w w.
Proof. by split. Qed.

Lemma frame_except_update k name w st (writes : bool) content :
  frame_except k name w
    (mkWorld (<[k := st]> (user_states w))
             (if writes then <[name := content]> (bucket w) else bucket w)).
Proof.
  split; simpl.
  - intros k' Hk'. by rewrite lookup_insert_ne.
  - intros n Hn. destruct writes; [|done]. by rewrite lookup_insert_ne.
Qed.

Lemma frame_except_accumulate uid k tier env w :
  key_of uid = Some k →
  frame_except k (get_state_file uid) w (accumulate uid tier env w).2.
Proof.
  intros Hk. rewrite (accumulate_eq uid k) by done. cbn zeta.
  destruct (py_add _ _) as [total|e]; simpl.
  - apply frame_except_update.
  - apply (frame_except_update k _ w _ false Garbage).
Qed.

(** ** The claims *)

(** C1. A notification for a user whose record, once loaded, carries a
    month different from the current one: the rollover leaves the record
    at total 0 and the current month before the amount is added, the
    handler returns, and the final total is the amount of the tier alone
    under the current month. *)
Theorem rollover_before_increment request u tier st env w :
  is_notification request (VStr u) tier →
  user_states (ensure_loaded (VStr u) env w).2 !! KStr u = Some st →
  month st ≠ VStr (now env) →
  user_states ((ensure_loaded (VStr u);; rollover_if_needed (VStr u)) env w).2
    !! KStr u = Some (mkUserState (VInt 0) (VStr (now env))) ∧
  ∃ w',
    handle_webhook request env w
      = (Returns (PointsAdded (tier_amount tier) (VStr u)), w') ∧
    user_states w' !! KStr u
      = Some (mkUserState (tier_amount tier) (VStr (now env))).
Proof.
  intros Hn Hst Hm. apply py_eq_str_false in Hm.
  rewrite (ensure_loaded_eq (VStr u) (KStr u)) in Hst by done.
  simpl in Hst. rewrite lookup_insert_eq in Hst. injection Hst as Hst.
  split.
  - unfold mbind at 1, M_bind at 1.
    rewrite (ensure_loaded_eq (VStr u) (KStr u)) by done.
    rewrite (rollover_if_needed_eq (VStr u) (KStr u) st)
      by (done || (rewrite <- Hst; apply lookup_insert_eq)).
    rewrite Hm. simpl. by rewrite lookup_insert_eq.
  - rewrite (handle_webhook_notification request (VStr u) tier) by done.
    rewrite (accumulate_eq (VStr u) (KStr u)) by done. cbn zeta.
    rewrite Hst. unfold rolled_over. rewrite Hm. simpl plus_points.
    rewrite py_add_zero_amount. eexists. split; [reflexivity|].
    simpl. by rewrite lookup_insert_eq.
Qed.

(** C2. The amount of a tier is 1 for "1000", 2 for "2000", 2.5 for
    "3000" and 0 for every other value, an absent tier included; and that
    amount is what a notification adds to the total of its user. *)
Theorem tier_amount_table :
  tier_amount (VStr "1000") = VInt 1 ∧
  tier_amount (VStr "2000") = VInt 2 ∧
  tier_amount (VStr "3000") = VFloat two_and_a_half ∧
  (∀ tier, tier ≠ VStr "1000" → tier ≠ VStr "2000" → tier ≠ VStr "3000" →
     tier_amount tier = VInt 0) ∧
  (∀ d, dict_lookup d "tier" = None →
     py_get (VDict d) "tier" VNone = Returns VNone ∧ tier_amount VNone = VInt 0) ∧
  (∀ request u tier total m env w,
     is_notification request (VStr u) tier →
     user_states w !! KStr u = Some (mkUserState (VInt total) (VStr (now env))) →
     py_add (VInt total) (tier_amount tier) = Returns m →
     ∃ w',
       handle_webhook request env w
         = (Returns (PointsAdded (tier_amount tier) (VStr u)), w') ∧
       user_states w' !! KStr u = Some (mkUserState m (VStr (now env)))).
Proof.
  repeat split; try reflexivity.
  - intros tier H1 H2 H3. unfold tier_amount.
    apply py_eq_str_false in H1, H2, H3. by rewrite H1, H2, H3.
  - simpl. by rewrite H.
  - intros request u tier total m env w Hn Hst Hadd.
    rewrite (handle_webhook_notification request (VStr u) tier) by done.
    rewrite (accumulate_eq (VStr u) (KStr u)) by done. cbn zeta.
    unfold loaded_record. rewrite Hst. simpl default.
    unfold rolled_over. cbn [month py_eq_str]. rewrite String.eqb_refl.
    cbn [month plus_points]. rewrite Hadd. eexists. split; [reflexivity|].
    simpl. by rewrite lookup_insert_eq.
Qed.

Lemma get_points_hit u st env w :
  u ≠ "" →
  user_states w !! KStr u = Some st →
  get_points (Some u) env w = (Returns (StatesBody {[KStr u := st]}), w).
Proof.
  intros Hu Hst. rewrite get_points_eq by done. cbn zeta.
  unfold loaded_record. rewrite Hst. simpl.
  rewrite insert_id by done. by destruct w.
Qed.

Lemma get_points_miss u env w :
  u ≠ "" →
  user_states w !! KStr u = None →
  get_points (Some u) env w
    = (Returns (StatesBody
                  {[KStr u := spec_loaded_record env w (get_state_file (VStr u))]}),
       mkWorld (<[KStr u := spec_loaded_record env w (get_state_file (VStr u))]>
                  (user_states w))
               (bucket w)).
Proof.
  intros Hu Hst. rewrite get_points_eq by done. cbn zeta.
  unfold loaded_record. by rewrite Hst.
Qed.

(** C3, as the code has it. [GET /points] with a user id returns the
    record of that user as it is cached, or as [load_user_state] builds it
    on a miss, with the month it carries; without a user id (or with the
    empty one) it returns the whole cache as it is. No read rolls a record
    over, whatever the current month is. *)
Theorem get_points_returns_record_verbatim u env w :
  (u ≠ "" →
   ∀ st, user_states w !! KStr u = Some st →
     get_points (Some u) env w = (Returns (StatesBody {[KStr u := st]}), w)) ∧
  (u ≠ "" →
   user_states w !! KStr u = None →
   let st := spec_loaded_record env w (get_state_file (VStr u)) in
   get_points (Some u) env w
     = (Returns (StatesBody {[KStr u := st]}),
        mkWorld (<[KStr u := st]> (user_states w)) (bucket w))) ∧
  (∀ user_id, user_id = None ∨ user_id = Some "" →
     get_points user_id env w = (Returns (StatesBody (user_states w)), w)).
Proof.
  split; [|split].
  - intros Hu st Hst. by apply get_points_hit.
  - intros Hu Hst. by apply get_points_miss.
  - intros user_id Hid. by apply get_points_all.
Qed.

(** C4. [set_points] returns, leaves the record of the user at the given
    value under the current month, uploads that record when the storage
    accepts the write, and a following [GET /points] for the user shows
    that record. *)
Theorem set_points_then_get u value env env' w :
  let st := mkUserState (VInt value) (VStr (now env)) in
  ∃ w',
    set_points u value env w = (Returns (PointsUpdated u value), w') ∧
    user_states w' !! KStr u = Some st ∧
    bucket w' =
      (if storage_writes env
       then <[get_state_file (VStr u) := json_dumps st]> (bucket w)
       else bucket w) ∧
    ∃ states,
      get_points (Some u) env' w' = (Returns (StatesBody states), w') ∧
      states !! KStr u = Some st.
Proof.
  intros st. rewrite set_points_eq. cbn zeta. fold st.
  eexists. split; [reflexivity|]. cbn [user_states bucket].
  split; [apply lookup_insert_eq|]. split; [done|].
  destruct (decide (u = "")) as [->|Hu].
  - eexists. split; [reflexivity|]. apply lookup_insert_eq.
  - eexists. split.
    + apply get_points_hit; [done|]. apply lookup_insert_eq.
    + apply lookup_singleton_eq.
Qed.

(** C5. Running the load-on-miss step a second time, at any later moment,
    changes nothing and gives the outcome of the first run; running it
    twice in a row is the same as running it once. *)
Theorem ensure_loaded_idempotent uid env env' w :
  ensure_loaded uid env' (ensure_loaded uid env w).2 = ensure_loaded uid env w ∧
  (ensure_loaded uid;; ensure_loaded uid) env w = ensure_loaded uid env w.
Proof.
  destruct (key_of uid) as [k|] eqn:Hk.
  - rewrite (ensure_loaded_eq uid k env w) by done.
    assert (∀ e, ensure_loaded uid e
              (mkWorld (<[k:=loaded_record env w uid k]> (user_states w)) (bucket w))
            = (Returns (),
               mkWorld (<[k:=loaded_record env w uid k]> (user_states w)) (bucket w)))
      as Hagain.
    { intros e. apply (ensure_loaded_hit uid k (loaded_record env w uid k)); [done|].
      apply lookup_insert_eq. }
    split; [apply Hagain|].
    unfold mbind, M_bind. rewrite (ensure_loaded_eq uid k env w) by done.
    apply Hagain.
  - rewrite (ensure_loaded_unhashable uid env w) by done. simpl.
    split; [by apply ensure_loaded_unhashable|].
    unfold mbind, M_bind. by rewrite (ensure_loaded_unhashable uid env w).
Qed.

(** C6. Loading the state of a user always returns: the cache entry becomes
    the record of the specification, that is the durable fields verbatim
    when the record is found (a missing field defaulting to 0 or to the
    current month), and 0 with the current month when the blob is absent
    or the storage does not answer. *)
Theorem load_user_state_never_raises u env w :
  let name := get_state_file (VStr u) in
  ∃ st,
    load_user_state (VStr u) env w
      = (Returns (), mkWorld (<[KStr u := st]> (user_states w)) (bucket w)) ∧
    st = spec_loaded_record env w name ∧
    (∀ d, storage_reads env = true →
          bucket w !! name = Some (JsonText (VDict d)) →
          plus_points st = default (VInt 0) (dict_lookup d "plus_points") ∧
          month st = default (VStr (now env)) (dict_lookup d "month")) ∧
    (storage_reads env = false ∨ bucket w !! name = None →
     st = mkUserState (VInt 0) (VStr (now env))).
Proof.
  intros name. exists (spec_loaded_record env w name).
  split; [by apply load_user_state_eq|]. split; [done|].
  unfold spec_loaded_record, spec_fetch. split.
  - intros d -> Hb. fold name. by rewrite Hb.
  - intros [-> | ->]; [done|]. by destruct (storage_reads env).
Qed.

Lemma verify_signature_invalid request :
  EVENTSUB_SECRET ≠ "" →
  ¬ signature_valid request →
  verify_signature request = false.
Proof.
  intros Hs Hn. unfold verify_signature.
  apply String.eqb_neq in Hs. rewrite Hs.
  destruct (headers request !! "Twitch-Eventsub-Message-Id")
    as [message_id|] eqn:Hid; [|done].
  destruct (headers request !! "Twitch-Eventsub-Message-Timestamp")
    as [timestamp|] eqn:Hts; [|done].
  destruct (body_decode request) as [body|] eqn:Hbody; [|done].
  destruct (headers request !! "Twitch-Eventsub-Message-Signature")
    as [given|] eqn:Hsig; [|done].
  simpl. unfold compare_digest.
  destruct (is_ascii given && is_ascii _); [|done]. simpl.
  apply String.eqb_neq. intros ->. apply Hn.
  by exists message_id, timestamp, body.
Qed.

(** C7. With a non-empty secret, a request whose signature is missing or
    is not the expected digest is answered with a client error and the
    world is left as it was; with an empty secret every request is
    accepted by the verification. *)
Theorem invalid_signature_rejected request env w :
  (EVENTSUB_SECRET ≠ "" →
   ¬ signature_valid request →
   ∃ e, handle_webhook request env w = (Raises e, w) ∧
        e = HTTPException 403 "Invalid signature" ∧ client_error e) ∧
  (EVENTSUB_SECRET ≠ "" →
   headers request !! "Twitch-Eventsub-Message-Signature" = None →
   ¬ signature_valid request) ∧
  (EVENTSUB_SECRET = "" → verify_signature request = true).
Proof.
  split; [|split].
  - intros Hs Hn. eexists. split; [|split; [reflexivity|]].
    + apply handle_webhook_rejected. by apply verify_signature_invalid.
    + simpl. lia.
  - intros _ Hnone (message_id & timestamp & body & _ & _ & _ & Hsig).
    congruence.
  - intros Hs. unfold verify_signature. by rewrite Hs.
Qed.

Lemma string_length_app (s t : string) :
  String.length (s ++ t) = (String.length s + String.length t)%nat.
Proof. induction s as [|c s IH]; simpl; [done|]. by rewrite IH. Qed.




(** C9, as the code has it. No request makes a total negative except a
    [POST /set-points] with a negative value: when every cached total and
    every durable total is a non-negative number before a request, the
    same holds after it, provided the value of a set is not negative. *)
Theorem totals_nonneg_preserved r env w :
  totals_nonneg w →
  (∀ u value, r = SetPoints u value → 0 <= value) →
  totals_nonneg (serve r env w).2.
Proof.
  intros Hw Hset. destruct r as [user_id|u value|request]; simpl.
  - destruct user_id as [u|]; [|done].
    destruct (decide (u = "")) as [->|Hu]; [done|].
    rewrite get_points_eq by done. cbn zeta.
    apply (totals_nonneg_update w _ _ "" Hw
             (nonneg_loaded_record env w (VStr u) (KStr u) Hw) false).
  - rewrite set_points_eq. cbn zeta.
    apply totals_nonneg_update; [done|]. apply nonneg_int. by eapply Hset.
  - destruct (handle_webhook_cases request env w)
      as [-> | (uid & tier & _ & ->)]; [done|].
    by apply totals_nonneg_accumulate.
Qed.

(** C10. [GET /points], [POST /set-points] and a notification for the user
    [u] leave every cache entry other than the one of [u] and every blob
    other than the state file of [u] as they were. *)
Theorem single_user_frame u env w :
  frame_except (KStr u) (get_state_file (VStr u)) w
    (get_points (Some u) env w).2 ∧
  (∀ value,
     frame_except (KStr u) (get_state_file (VStr u)) w
       (set_points u value env w).2) ∧
  (∀ request tier,
     is_notification request (VStr u) tier →
     frame_except (KStr u) (get_state_file (VStr u)) w
       (handle_webhook request env w).2).
Proof.
  split; [|split].
  - destruct (decide (u = "")) as [->|Hu]; [apply frame_except_refl|].
    rewrite get_points_eq by done. cbn zeta.
    apply (frame_except_update (KStr u) _ w _ false Garbage).
  - intros value. rewrite set_points_eq. cbn zeta.
    apply frame_except_update.
  - intros request tier Hn.
    rewrite (handle_webhook_notification request (VStr u) tier) by done.
    by apply frame_except_accumulate.
Qed.

(** ** Further properties of the handlers *)

Lemma string_app_inj_r (s1 s2 t : string) : s1 ++ t = s2 ++ t → s1 = s2.
Proof.
  revert s2. induction s1 as [|c s1 IH]; intros [|c' s2] H; simpl in H.
  - done.
  - apply (f_equal String.length) in H.
    rewrite !string_length_app in H. simpl in H. lia.
  - apply (f_equal String.length) in H.
    rewrite !string_length_app in H. simpl in H. lia.
  - injection H as -> H. f_equal. by apply IH.
Qed.

(** The uniform shape of the webhook handler: a request either has one
    outcome and no effect in every world, or runs the accumulator. *)
Lemma handle_webhook_shape request :
  (∃ o, ∀ env w, handle_webhook request env w = (o, w)) ∨
  (∃ user_id tier,
     is_notification request user_id tier ∧
     ∀ env w, handle_webhook request env w = accumulate user_id tier env w).
Proof.
  destruct (verify_signature request) eqn:Hv.
  2:{ left. eexists. intros env w. by apply handle_webhook_rejected. }
  destruct (json request) as [payload|] eqn:Hj.
  2:{ left. eexists. intros env w. unfold handle_webhook. by rewrite Hv, Hj. }
  destruct (headers request !! "Twitch-Eventsub-Message-Type") as [ty|] eqn:Hty.
  2:{ left. eexists. intros env w. unfold handle_webhook. by rewrite Hv, Hj, Hty. }
  destruct (decide (ty = "webhook_callback_verification")) as [->|Hn1].
  { left. destruct (py_getitem payload "challenge") as [c|e] eqn:Hc;
      eexists; intros env w; unfold handle_webhook; rewrite Hv, Hj, Hty; simpl;
      unfold mbind, M_bind, lift, mret, M_ret; by rewrite Hc. }
  destruct (decide (ty = "notification")) as [->|Hn2].
  2:{ left. eexists. intros env w. unfold handle_webhook.
      rewrite Hv, Hj, Hty; simpl.
      rewrite !bool_decide_eq_false_2 by congruence. done. }
  destruct (py_get payload "event" (VDict [])) as [event|e] eqn:Hev.
  2:{ left. eexists. intros env w. unfold handle_webhook.
      rewrite Hv, Hj, Hty; simpl. unfold mbind, M_bind, lift. by rewrite Hev. }
  destruct (py_get event "broadcaster_user_id" VNone) as [uid|e] eqn:Hid.
  2:{ left. eexists. intros env w. unfold handle_webhook.
      rewrite Hv, Hj, Hty; simpl. unfold mbind, M_bind, lift.
      by rewrite Hev, Hid. }
  destruct (truthy uid) eqn:Htr.
  2:{ left. eexists. intros env w. unfold handle_webhook.
      rewrite Hv, Hj, Hty; simpl. unfold mbind, M_bind, lift.
      by rewrite Hev, Hid, Htr. }
  destruct (py_get event "tier" VNone) as [tier|e] eqn:Htier.
  2:{ destruct event; discriminate. }
  right. exists uid, tier.
  assert (is_notification request uid tier) as Hn.
  { split; [done|]. split; [done|]. by exists payload, event. }
  split; [done|]. intros env w. by apply handle_webhook_notification.
Qed.


(** X2. Distinct user ids have distinct state files, so two users never
    share a blob. *)
Theorem state_files_distinct u v :
  u ≠ v → get_state_file (VStr u) ≠ get_state_file (VStr v).
Proof.
  unfold get_state_file. intros Huv H. apply Huv.
  apply (inj (String.app "state_")) in H. by apply string_app_inj_r in H.
Qed.

(** X3. Only notifications change anything: a webhook request whose message
    type is not [notification] leaves the cache and the bucket as they
    were, whatever it answers. *)
Theorem non_notification_leaves_world request env w :
  headers request !! "Twitch-Eventsub-Message-Type" ≠ Some "notification" →
  (handle_webhook request env w).2 = w.
Proof.
  intros Hty.
  destruct (handle_webhook_cases request env w)
    as [H | (uid & tier & (_ & Hn & _) & _)]; [done|congruence].
Qed.

(** X4. A notification whose event has no broadcaster id, or a falsy one
    (null, the empty string, zero, an empty array or object), is refused
    with status 400 and changes nothing. *)
Theorem missing_broadcaster_rejected request payload event user_id env w :
  verify_signature request = true →
  headers request !! "Twitch-Eventsub-Message-Type" = Some "notification" →
  json request = Some payload →
  py_get payload "event" (VDict []) = Returns event →
  py_get event "broadcaster_user_id" VNone = Returns user_id →
  truthy user_id = false →
  handle_webhook request env w
    = (Raises (HTTPException 400 "Missing broadcaster_user_id"), w).
Proof.
  intros Hv Hty Hj Hev Hid Htr. unfold handle_webhook.
  rewrite Hv, Hj, Hty; simpl. unfold mbind, M_bind, lift.
  by rewrite Hev, Hid, Htr.
Qed.

(** X5. A verified request with a JSON body whose message type is neither
    the handshake nor [notification], or is absent, is acknowledged with
    the "Unhandled" message and changes nothing. *)
Theorem other_message_types_unhandled request payload env w :
  verify_signature request = true →
  json request = Some payload →
  headers request !! "Twitch-Eventsub-Message-Type"
    ≠ Some "webhook_callback_verification" →
  headers request !! "Twitch-Eventsub-Message-Type" ≠ Some "notification" →
  handle_webhook request env w = (Returns Unhandled, w).
Proof.
  intros Hv Hj H1 H2. unfold handle_webhook. rewrite Hv, Hj; simpl.
  by rewrite !bool_decide_eq_false_2.
Qed.

(** X6. A verified handshake whose payload is an object without a challenge
    raises [KeyError], which is not an [HTTPException], and changes
    nothing. *)
Theorem handshake_without_challenge_raises request d env w :
  verify_signature request = true →
  headers request !! "Twitch-Eventsub-Message-Type"
    = Some "webhook_callback_verification" →
  json request = Some (VDict d) →
  dict_lookup d "challenge" = None →
  handle_webhook request env w = (Raises KeyError, w) ∧
  ¬ client_error KeyError.
Proof.
  intros Hv Hty Hj Hd. split; [|intros []].
  unfold handle_webhook. rewrite Hv, Hj, Hty; simpl.
  unfold mbind, M_bind, lift, py_getitem. by rewrite Hd.
Qed.

Lemma update_keeps_entries w k st (writes : bool) name content :
  let w' := mkWorld (<[k := st]> (user_states w))
                    (if writes then <[name := content]> (bucket w) else bucket w) in
  (∀ k', is_Some (user_states w !! k') → is_Some (user_states w' !! k')) ∧
  (∀ n, is_Some (bucket w !! n) → is_Some (bucket w' !! n)).
Proof.
  split; simpl.
  - intros k' Hk'. apply lookup_insert_is_Some. destruct (decide (k = k')); auto.
  - intros n Hn. destruct writes; [|done].
    apply lookup_insert_is_Some. destruct (decide (name = n)); auto.
Qed.

Lemma accumulate_world uid k tier env w :
  key_of uid = Some k →
  ∃ st (writes : bool) content,
    (accumulate uid tier env w).2
      = mkWorld (<[k := st]> (user_states w))
                (if writes then <[get_state_file uid := content]> (bucket w)
                 else bucket w).
Proof.
  intros Hk. rewrite (accumulate_eq uid k) by done. cbn zeta.
  destruct (py_add _ _) as [total|e]; simpl.
  - by eexists _, (storage_writes env), _.
  - by eexists _, false, Garbage.
Qed.

(** The world after any request: the world before, or one cache entry set
    and at most one blob written. *)
Lemma serve_world r env w :
  (serve r env w).2 = w ∨
  ∃ k st (writes : bool) name content,
    (serve r env w).2
      = mkWorld (<[k := st]> (user_states w))
                (if writes then <[name := content]> (bucket w) else bucket w).
Proof.
  destruct r as [user_id|u value|request]; simpl.
  - destruct user_id as [u|]; [|by left].
    destruct (decide (u = "")) as [->|Hu]; [by left|].
    right. rewrite get_points_eq by done. cbn zeta.
    by eexists _, _, false, "", Garbage.
  - right. rewrite set_points_eq. cbn zeta.
    by eexists _, _, (storage_writes env), _, _.
  - destruct (handle_webhook_cases request env w)
      as [-> | (uid & tier & _ & ->)]; [by left|].
    destruct (key_of uid) as [k|] eqn:Hk.
    + right. destruct (accumulate_world uid k tier env w Hk)
        as (st & writes & content & ->).
      by eexists _, _, _, _, _.
    + left. by rewrite accumulate_unhashable.
Qed.

(** X7. No request removes anything: every cache entry and every blob
    present before a request is still present after it. *)
Theorem entries_never_removed r env w :
  (∀ k, is_Some (user_states w !! k) →
        is_Some (user_states (serve r env w).2 !! k)) ∧
  (∀ n, is_Some (bucket w !! n) → is_Some (bucket (serve r env w).2 !! n)).
Proof.
  destruct (serve_world r env w)
    as [-> | (k & st & writes & name & content & ->)]; [done|].
  apply update_keeps_entries.
Qed.

(** X8. Every request, whatever its endpoint and outcome, changes at most
    one cache entry and at most one blob. *)
Theorem request_touches_one_user r env w :
  ∃ k name, frame_except k name w (serve r env w).2.
Proof.
  destruct (serve_world r env w)
    as [-> | (k & st & writes & name & content & ->)].
  - exists KNone, "". apply frame_except_refl.
  - exists k, name. apply frame_except_update.
Qed.


(** X10. [GET /points] never writes to the bucket and never changes a
    record that is already cached, whatever the bucket holds for it. *)
Theorem get_points_reads_only user_id env w :
  bucket (get_points user_id env w).2 = bucket w ∧
  (∀ k st, user_states w !! k = Some st →
           user_states (get_points user_id env w).2 !! k = Some st).
Proof.
  destruct user_id as [u|]; [|done].
  destruct (decide (u = "")) as [->|Hu]; [done|].
  rewrite get_points_eq by done. cbn zeta. split; [done|].
  intros k st Hst. simpl. destruct (decide (k = KStr u)) as [->|Hk].
  - rewrite lookup_insert_eq. unfold loaded_record. by rewrite Hst.
  - by rewrite lookup_insert_ne.
Qed.

(** X11. The first read loads, the following ones do not: a second
    [GET /points] with the same argument, at any later moment and whatever
    the storage does then, gives the answer of the first and changes
    nothing. *)
Theorem get_points_idempotent user_id env env' w :
  get_points user_id env' (get_points user_id env w).2
    = ((get_points user_id env w).1, (get_points user_id env w).2).
Proof.
  destruct user_id as [u|]; [|done].
  destruct (decide (u = "")) as [->|Hu]; [done|].
  rewrite (get_points_eq u env w) by done. cbn zeta. cbn [fst snd].
  apply get_points_hit; [done|]. apply lookup_insert_eq.
Qed.

(** X12. The last set wins: when the storage accepts the write, the world
    after [POST /set-points] does not depend on an earlier set for the same
    user. *)
Theorem set_points_last_write_wins u value value' env env' w :
  storage_writes env = true →
  set_points u value env (set_points u value' env' w).2
    = set_points u value env w.
Proof.
  intros Hw. rewrite !set_points_eq. cbn zeta. cbn [snd user_states bucket].
  rewrite Hw, insert_insert_eq.
  destruct (storage_writes env'); [|done]. by rewrite insert_insert_eq.
Qed.

(** X13. [save_user_state] never raises and never touches the cache; it
    writes nothing when the user is not cached, and otherwise at most the
    state file of the user. *)
Theorem save_user_state_never_raises uid env w :
  (save_user_state uid env w).1 = Returns () ∧
  user_states (save_user_state uid env w).2 = user_states w ∧
  (∀ n, n ≠ get_state_file uid →
        bucket (save_user_state uid env w).2 !! n = bucket w !! n) ∧
  (∀ k, key_of uid = Some k → user_states w !! k = None →
        (save_user_state uid env w).2 = w).
Proof.
  destruct (key_of uid) as [k|] eqn:Hk.
  - destruct (user_states w !! k) as [st|] eqn:Hst.
    + rewrite (save_user_state_eq uid k st) by done.
      destruct (storage_writes env); simpl; repeat split; try done.
      * intros n Hn. by rewrite lookup_insert_ne.
      * intros k' [= <-]. congruence.
    + munfold. by rewrite Hk, Hst.
  - munfold. rewrite Hk. repeat split; try done.
Qed.

Lemma tier_amount_int tier :
  tier ≠ VStr "3000" → ∃ a, tier_amount tier = VInt a.
Proof.
  intros H3. apply py_eq_str_false in H3. unfold tier_amount. rewrite H3.
  destruct (py_eq_str tier "1000"); [by eexists|].
  destruct (py_eq_str tier "2000"); by eexists.
Qed.

Lemma py_add_not_number a n :
  py_float a = None → py_add a n = Raises TypeError.
Proof. destruct a, n; simpl; intros H; try discriminate; reflexivity. Qed.


Lemma month_rolled_over env st : month (rolled_over env st) = VStr (now env).
Proof.
  unfold rolled_over. destruct (py_eq_str (month st) (now env)) eqn:Hm; [|done].
  by apply py_eq_str_true.
Qed.

(** X14. A notification with a tier other than "3000" for a user whose
    loaded total is an [int] always returns, whatever the size of the
    total: the record ends under the current month, and its total is the
    integer amount of the tier (1, 2 or 0) added to the old total if the
    record was of the current month, to 0 otherwise. *)
Theorem notification_adds_to_int_total request u tier st total env w :
  is_notification request (VStr u) tier →
  tier ≠ VStr "3000" →
  user_states (ensure_loaded (VStr u) env w).2 !! KStr u = Some st →
  plus_points st = VInt total →
  ∃ w' a,
    tier_amount tier = VInt a ∧
    handle_webhook request env w
      = (Returns (PointsAdded (VInt a) (VStr u)), w') ∧
    user_states w' !! KStr u
      = Some (mkUserState
                (VInt ((if py_eq_str (month st) (now env) then total else 0) + a))
                (VStr (now env))).
Proof.
  intros Hn H3 Hst Htotal.
  rewrite (ensure_loaded_eq (VStr u) (KStr u)) in Hst by done.
  simpl in Hst. rewrite lookup_insert_eq in Hst. injection Hst as Hst.
  destruct (tier_amount_int tier H3) as (a & Ha).
  rewrite (handle_webhook_notification request (VStr u) tier) by done.
  rewrite (accumulate_eq (VStr u) (KStr u)) by done. cbn zeta.
  rewrite Hst, month_rolled_over, Ha.
  assert (plus_points (rolled_over env st)
          = VInt (if py_eq_str (month st) (now env) then total else 0)) as ->.
  { unfold rolled_over. by destruct (py_eq_str (month st) (now env)). }
  cbn [py_add]. eexists _, a. split; [done|]. split; [reflexivity|].
  simpl. by rewrite lookup_insert_eq.
Qed.

(** X15. A notification for a user whose loaded record is of the current
    month and whose total is not a number (a string, null, a list or an
    object read from the bucket) raises [TypeError]: the loaded record stays
    in the cache and nothing is saved. *)
Theorem notification_on_non_numeric_total_raises request u tier st env w :
  is_notification request (VStr u) tier →
  user_states (ensure_loaded (VStr u) env w).2 !! KStr u = Some st →
  month st = VStr (now env) →
  py_float (plus_points st) = None →
  handle_webhook request env w
    = (Raises TypeError, (ensure_loaded (VStr u) env w).2) ∧
  bucket (handle_webhook request env w).2 = bucket w.
Proof.
  intros Hn Hst Hm Hq.
  rewrite (ensure_loaded_eq (VStr u) (KStr u)) in * by done.
  simpl in Hst. rewrite lookup_insert_eq in Hst. injection Hst as Hst.
  rewrite (handle_webhook_notification request (VStr u) tier) by done.
  rewrite (accumulate_eq (VStr u) (KStr u)) by done. cbn zeta.
  rewrite Hst. unfold rolled_over.
  apply py_eq_str_true in Hm. rewrite Hm.
  by rewrite py_add_not_number.
Qed.

(** X16. With a non-empty secret the verification accepts a request exactly
    when its signature header is ASCII and is the expected digest of the
    message id, the timestamp and the decoded body. *)
Theorem verify_signature_accepts_exactly request :
  EVENTSUB_SECRET ≠ "" →
  verify_signature request = true ↔
  signature_valid request ∧
  ∃ given,
    headers request !! "Twitch-Eventsub-Message-Signature" = Some given ∧
    is_ascii given = true.
Proof.
  intros Hs. apply String.eqb_neq in Hs. split.
  - unfold verify_signature, signature_valid. rewrite Hs.
    destruct (headers request !! "Twitch-Eventsub-Message-Id")
      as [message_id|] eqn:Hid; [|done].
    destruct (headers request !! "Twitch-Eventsub-Message-Timestamp")
      as [timestamp|] eqn:Hts; [|done].
    destruct (body_decode request) as [body|] eqn:Hbody; [|done].
    destruct (headers request !! "Twitch-Eventsub-Message-Signature")
      as [given|] eqn:Hsig; [|done].
    simpl. unfold compare_digest.
    destruct (is_ascii given && is_ascii _) eqn:Hg; [|done].
    apply andb_true_iff in Hg as [Hg _]. simpl. intros Heq.
    apply String.eqb_eq in Heq. subst given. split.
    + by exists message_id, timestamp, body.
    + by eexists.
  - intros [(message_id & timestamp & body & Hid & Hts & Hbody & Hsig)
              (given & Hsig' & Hg)].
    unfold verify_signature. rewrite Hs, Hid, Hts, Hbody, Hsig. simpl.
    rewrite Hsig in Hsig'. injection Hsig' as <-.
    unfold compare_digest. rewrite Hg. simpl. by rewrite String.eqb_refl.
Qed.

(** X17. A notification whose broadcaster id is a non-empty array or object
    raises [TypeError] at the membership test and changes nothing. *)
Theorem unhashable_broadcaster_raises request user_id tier env w :
  is_notification request user_id tier →
  key_of user_id = None →
  handle_webhook request env w = (Raises TypeError, w).
Proof.
  intros Hn Hk. rewrite (handle_webhook_notification request user_id tier) by done.
  by apply accumulate_unhashable.
Qed.

(** X18. A refused write is silent: with the storage refusing writes, every
    request gives the same answer and leaves the same cache as with the
    storage accepting them, and the bucket stays as it was. *)
Theorem write_failure_is_silent r current reads w :
  (serve r (mkEnv current reads false) w).1
    = (serve r (mkEnv current reads true) w).1 ∧
  user_states (serve r (mkEnv current reads false) w).2
    = user_states (serve r (mkEnv current reads true) w).2 ∧
  bucket (serve r (mkEnv current reads false) w).2 = bucket w.
Proof.
  destruct r as [user_id|u value|request]; simpl.
  - destruct user_id as [u|]; [|done].
    destruct (decide (u = "")) as [->|Hu]; [done|].
    by rewrite !get_points_eq by done.
  - by rewrite !set_points_eq.
  - destruct (handle_webhook_shape request)
      as [(o & Ho) | (uid & tier & _ & Hacc)].
    { by rewrite !Ho. }
    rewrite !Hacc. destruct (key_of uid) as [k|] eqn:Hk.
    + rewrite !(accumulate_eq uid k) by done. cbn zeta.
      change (loaded_record (mkEnv current reads false) w uid k)
        with (loaded_record (mkEnv current reads true) w uid k).
      change (rolled_over (mkEnv current reads false))
        with (rolled_over (mkEnv current reads true)).
      by destruct (py_add _ _).
    + by rewrite !accumulate_unhashable.
Qed.

(** X19. A blind load clobbers the durable record: when a notification
    arrives for a user who is not cached while the storage refuses reads
    but accepts writes, the state file of the user ends holding the amount
    of the tier alone, whatever it held before. *)
Theorem blind_load_overwrites_durable_record request u tier env w :
  is_notification request (VStr u) tier →
  user_states w !! KStr u = None →
  storage_reads env = false →
  storage_writes env = true →
  bucket (handle_webhook request env w).2 !! get_state_file (VStr u)
    = Some (json_dumps (mkUserState (tier_amount tier) (VStr (now env)))).
Proof.
  intros Hn Hu Hr Hw.
  rewrite (handle_webhook_notification request (VStr u) tier) by done.
  rewrite (accumulate_eq (VStr u) (KStr u)) by done. cbn zeta.
  unfold loaded_record, spec_loaded_record, spec_fetch. rewrite Hu, Hr.
  cbn [default]. unfold rolled_over. cbn [month py_eq_str].
  rewrite String.eqb_refl. cbn [plus_points month].
  rewrite py_add_zero_amount, Hw. simpl. by rewrite lookup_insert_eq.
Qed.

(** X20. The cache wins: for a user who is cached, [GET /points] and a
    notification give the same answer and the same world whether or not the
    storage answers reads, and [POST /set-points] does so for every user. *)
Theorem cached_user_never_reads_storage request u tier st current writes w :
  is_notification request (VStr u) tier →
  u ≠ "" →
  user_states w !! KStr u = Some st →
  get_points (Some u) (mkEnv current false writes) w
    = get_points (Some u) (mkEnv current true writes) w ∧
  handle_webhook request (mkEnv current false writes) w
    = handle_webhook request (mkEnv current true writes) w ∧
  (∀ v value,
     set_points v value (mkEnv current false writes) w
       = set_points v value (mkEnv current true writes) w).
Proof.
  intros Hn Hu Hst. split; [|split].
  - by rewrite !(get_points_hit u st) by done.
  - rewrite !(handle_webhook_notification request (VStr u) tier) by done.
    rewrite !(accumulate_eq (VStr u) (KStr u)) by done. cbn zeta.
    unfold loaded_record. by rewrite Hst.
  - intros v value. by rewrite !set_points_eq.
Qed.

Lemma notification_on_cached_int_total request u tier total env w :
  is_notification request (VStr u) tier →
  tier ≠ VStr "3000" →
  user_states w !! KStr u = Some (mkUserState (VInt total) (VStr (now env))) →
  ∃ a,
    tier_amount tier = VInt a ∧
    handle_webhook request env w
      = (Returns (PointsAdded (VInt a) (VStr u)),
         mkWorld
           (<[KStr u := mkUserState (VInt (total + a)) (VStr (now env))]>
              (user_states w))
           (if storage_writes env
            then <[get_state_file (VStr u)
                   := json_dumps (mkUserState (VInt (total + a)) (VStr (now env)))]>
                   (bucket w)
            else bucket w)).
Proof.
  intros Hn H3 Hst.
  destruct (tier_amount_int tier H3) as (a & Ha). exists a. split; [done|].
  rewrite (handle_webhook_notification request (VStr u) tier) by done.
  rewrite (accumulate_eq (VStr u) (KStr u)) by done. cbn zeta.
  assert (rolled_over env (loaded_record env w (VStr u) (KStr u))
          = mkUserState (VInt total) (VStr (now env))) as ->.
  { unfold loaded_record. rewrite Hst. simpl. unfold rolled_over. simpl.
    by rewrite String.eqb_refl. }
  by rewrite Ha.
Qed.

(** X21. Deliveries are not deduplicated: the same notification, with a
    tier other than "3000", handled twice in the same month for a user with
    an [int] total adds the integer amount of its tier twice. *)
Theorem duplicate_delivery_counts_twice request u tier total env w :
  is_notification request (VStr u) tier →
  tier ≠ VStr "3000" →
  user_states w !! KStr u = Some (mkUserState (VInt total) (VStr (now env))) →
  ∃ w1 w2 a,
    tier_amount tier = VInt a ∧
    handle_webhook request env w
      = (Returns (PointsAdded (VInt a) (VStr u)), w1) ∧
    handle_webhook request env w1
      = (Returns (PointsAdded (VInt a) (VStr u)), w2) ∧
    user_states w2 !! KStr u
      = Some (mkUserState (VInt (total + a + a)) (VStr (now env))).
Proof.
  intros Hn H3 Hst.
  destruct (notification_on_cached_int_total request u tier total env w)
    as (a & Ha & H1); [done..|].
  set (w1 := mkWorld
               (<[KStr u := mkUserState (VInt (total + a)) (VStr (now env))]>
                  (user_states w))
               (if storage_writes env
                then <[get_state_file (VStr u)
                       := json_dumps (mkUserState (VInt (total + a)) (VStr (now env)))]>
                       (bucket w)
                else bucket w)) in *.
  destruct (notification_on_cached_int_total request u tier (total + a) env w1)
    as (a' & Ha' & H2); [done|done|apply lookup_insert_eq|].
  rewrite Ha in Ha'. injection Ha' as <-.
  eexists w1, _, a. split; [done|]. split; [exact H1|]. split; [exact H2|].
  simpl. by rewrite lookup_insert_eq.
Qed.

(** X22. A blob that is not a JSON object (text that does not parse, or a
    JSON array, string, number or null) is treated like an absent one: the
    user starts at 0 under the current month and nothing is raised. *)
Theorem malformed_blob_degrades_to_default u b env w :
  storage_reads env = true →
  bucket w !! get_state_file (VStr u) = Some b →
  (∀ d, b ≠ JsonText (VDict d)) →
  load_user_state (VStr u) env w
    = (Returns (),
       mkWorld (<[KStr u := mkUserState (VInt 0) (VStr (now env))]> (user_states w))
               (bucket w)).
Proof.
  intros Hr Hb Hnd.
  rewrite (load_user_state_eq (VStr u) (KStr u)) by done.
  unfold spec_loaded_record, spec_fetch. rewrite Hr, Hb.
  destruct b as [v|]; [|done]. destruct v; try done. by destruct (Hnd d).
Qed.


End Program.

(** ** The claims at the sample data *)

Lemma request_tier3000_is_notification :
  is_notification "s3cr3t" toy_digest request_tier3000 (VStr "u1") (VStr "3000").
Proof.
  split; [reflexivity|]. split; [reflexivity|].
  eexists _, _. repeat split; reflexivity.
Defined.

(** The rollover example of the specification: 7 points of May, a tier-3000
    notification in June, a final total of 2.5. *)
Lemma rollover_before_increment_witness :
  ∃ w',
    handle_webhook "s3cr3t" toy_digest scalar_str request_tier3000 env_june world_may
      = (Returns (PointsAdded (VFloat two_and_a_half) (VStr "u1")), w') ∧
    user_states w' !! KStr "u1"
      = Some (mkUserState (VFloat two_and_a_half) (VStr "2024-06")).
Proof.
  refine (proj2 (rollover_before_increment "s3cr3t" toy_digest scalar_str
                   request_tier3000 "u1" (VStr "3000")
                   (mkUserState (VInt 7) (VStr "2024-05")) env_june world_may
                   request_tier3000_is_notification _ _)).
  - reflexivity.
  - discriminate.
Defined.

(** The same notification on 7 points of the current month: 9.5. *)
Lemma tier_amount_table_witness :
  ∃ w',
    handle_webhook "s3cr3t" toy_digest scalar_str request_tier3000 env_june world_june
      = (Returns (PointsAdded (VFloat two_and_a_half) (VStr "u1")), w') ∧
    user_states w' !! KStr "u1"
      = Some (mkUserState (VFloat (float_of_dyadic 19 (-1))) (VStr "2024-06")).
Proof.
  refine (proj2 (proj2 (proj2 (proj2 (proj2
            (tier_amount_table "s3cr3t" toy_digest scalar_str)))))
          request_tier3000 "u1" (VStr "3000") 7 (VFloat (float_of_dyadic 19 (-1)))
          env_june world_june request_tier3000_is_notification _ _);
    reflexivity.
Defined.

(** C3 as stated fails: the 7 points set in May are returned in June, from
    the cache and, after a restart, from the bucket, with no reset. *)
Lemma stale_total_returned_in_new_period :
  (set_points scalar_str "u1" 7 env_may empty_world).2.(user_states) = user_states world_may ∧
  now env_june = "2024-06" ∧
  get_points scalar_str (Some "u1") env_june world_may
    = (Returns (StatesBody {[KStr "u1" := mkUserState (VInt 7) (VStr "2024-05")]}),
       world_may) ∧
  (get_points scalar_str (Some "u1") env_june world_restarted).1
    = Returns (StatesBody {[KStr "u1" := mkUserState (VInt 7) (VStr "2024-05")]}) ∧
  get_points scalar_str None env_june world_may
    = (Returns (StatesBody {[KStr "u1" := mkUserState (VInt 7) (VStr "2024-05")]}),
       world_may) ∧
  VInt 7 ≠ VInt 0.
Proof. repeat split; (reflexivity || discriminate). Qed.

Lemma get_points_returns_record_verbatim_witness :
  get_points scalar_str (Some "u1") env_june world_may
    = (Returns (StatesBody {[KStr "u1" := mkUserState (VInt 7) (VStr "2024-05")]}),
       world_may).
Proof.
  refine (proj1 (get_points_returns_record_verbatim scalar_str "u1" env_june world_may)
            _ (mkUserState (VInt 7) (VStr "2024-05")) _).
  - discriminate.
  - reflexivity.
Defined.

(** A durable record of May is adopted verbatim in June. *)
Lemma load_user_state_never_raises_witness :
  ∃ st,
    load_user_state scalar_str (VStr "u1") env_june world_restarted
      = (Returns (),
         mkWorld (<[KStr "u1" := st]> (user_states world_restarted))
                 (bucket world_restarted)) ∧
    plus_points st = VInt 7 ∧ month st = VStr "2024-05".
Proof.
  destruct (load_user_state_never_raises scalar_str "u1" env_june world_restarted)
    as (st & Hload & _ & Hfound & _).
  exists st. split; [exact Hload|].
  refine (Hfound [("plus_points", VInt 7); ("month", VStr "2024-05")] _ _);
    reflexivity.
Defined.

(** The notification without its signature header is refused with 403. *)
Lemma invalid_signature_rejected_witness :
  ∃ e,
    handle_webhook "s3cr3t" toy_digest scalar_str request_unsigned env_june world_may
      = (Raises e, world_may) ∧
    e = HTTPException 403 "Invalid signature" ∧
    client_error e.
Proof.
  pose proof (invalid_signature_rejected "s3cr3t" toy_digest scalar_str
                request_unsigned env_june world_may) as (Hreject & Hmissing & _).
  apply Hreject; [discriminate|]. apply Hmissing; [discriminate|reflexivity].
Defined.



(** C9 as stated fails: [POST /set-points] with -5 stores -5. *)
Lemma set_points_stores_negative_total :
  user_states (set_points scalar_str "u1" (-5) env_june empty_world).2 !! KStr "u1"
    = Some (mkUserState (VInt (-5)) (VStr "2024-06")) ∧
  bucket (set_points scalar_str "u1" (-5) env_june empty_world).2 !! "state_u1.json"
    = Some (JsonText (VDict [("plus_points", VInt (-5)); ("month", VStr "2024-06")])) ∧
  ¬ nonneg (VInt (-5)).
Proof.
  repeat split; try reflexivity. simpl. lia.
Qed.

Lemma totals_nonneg_preserved_witness :
  totals_nonneg
    (serve "s3cr3t" toy_digest scalar_str (Webhook request_tier3000)
       env_june world_may).2.
Proof.
  apply totals_nonneg_preserved.
  - split.
    + apply map_Forall_singleton. apply nonneg_int. lia.
    + apply map_Forall_empty.
  - discriminate.
Defined.

Lemma single_user_frame_witness :
  frame_except (KStr "u1") "state_u1.json" world_may
    (handle_webhook "s3cr3t" toy_digest scalar_str request_tier3000
       env_june world_may).2.
Proof.
  exact (proj2 (proj2 (single_user_frame "s3cr3t" toy_digest scalar_str
                         "u1" env_june world_may))
           request_tier3000 (VStr "3000") request_tier3000_is_notification).
Defined.

(** ** The further properties at the sample data *)


Lemma state_files_distinct_witness :
  get_state_file scalar_str (VStr "u1") ≠ get_state_file scalar_str (VStr "u2").
Proof. apply state_files_distinct. discriminate. Defined.

Lemma non_notification_leaves_world_witness :
  (handle_webhook "s3cr3t" toy_digest scalar_str request_revocation
     env_june world_may).2 = world_may.
Proof.
  apply non_notification_leaves_world.
  intros H. vm_compute in H. discriminate H.
Defined.

Lemma missing_broadcaster_rejected_witness :
  handle_webhook "s3cr3t" toy_digest scalar_str request_no_broadcaster
    env_june world_may
  = (Raises (HTTPException 400 "Missing broadcaster_user_id"), world_may).
Proof.
  apply (missing_broadcaster_rejected "s3cr3t" toy_digest scalar_str
           request_no_broadcaster
           (VDict [("event", VDict [("tier", VStr "1000")])])
           (VDict [("tier", VStr "1000")]) VNone);
    reflexivity.
Defined.

Lemma other_message_types_unhandled_witness :
  handle_webhook "s3cr3t" toy_digest scalar_str request_revocation
    env_june world_may
  = (Returns Unhandled, world_may).
Proof.
  apply (other_message_types_unhandled "s3cr3t" toy_digest scalar_str
           request_revocation (VDict [("subscription", VDict [])]));
    try reflexivity; intros H; vm_compute in H; discriminate H.
Defined.

Lemma handshake_without_challenge_raises_witness :
  handle_webhook "s3cr3t" toy_digest scalar_str request_handshake_no_challenge
    env_june world_may
  = (Raises KeyError, world_may) ∧
  ¬ client_error KeyError.
Proof.
  apply (handshake_without_challenge_raises "s3cr3t" toy_digest scalar_str
           request_handshake_no_challenge [("subscription", VDict [])]);
    reflexivity.
Defined.


Lemma set_points_last_write_wins_witness :
  set_points scalar_str "u1" 10 env_june
    (set_points scalar_str "u1" 3 env_may empty_world).2
  = set_points scalar_str "u1" 10 env_june empty_world.
Proof. apply set_points_last_write_wins. reflexivity. Defined.

Lemma notification_adds_to_int_total_witness :
  ∃ w' a,
    tier_amount (VStr "2000") = VInt a ∧
    handle_webhook "s3cr3t" toy_digest scalar_str request_tier2000
      env_june world_may
      = (Returns (PointsAdded (VInt a) (VStr "u1")), w') ∧
    user_states w' !! KStr "u1"
      = Some (mkUserState (VInt (0 + a)) (VStr "2024-06")).
Proof.
  apply (notification_adds_to_int_total "s3cr3t" toy_digest scalar_str
           request_tier2000 "u1" (VStr "2000")
           (mkUserState (VInt 7) (VStr "2024-05")) 7 env_june world_may);
    try reflexivity; try discriminate.
  split; [reflexivity|]. split; [reflexivity|].
  eexists _, _. repeat split; reflexivity.
Defined.

Lemma notification_on_non_numeric_total_raises_witness :
  handle_webhook "s3cr3t" toy_digest scalar_str request_tier3000
    env_june world_text_total
  = (Raises TypeError,
     (ensure_loaded scalar_str (VStr "u1") env_june world_text_total).2) ∧
  bucket (handle_webhook "s3cr3t" toy_digest scalar_str request_tier3000
            env_june world_text_total).2
  = bucket world_text_total.
Proof.
  apply (notification_on_non_numeric_total_raises "s3cr3t" toy_digest scalar_str
           request_tier3000 "u1" (VStr "3000")
           (mkUserState (VStr "seven") (VStr "2024-06")) env_june
           world_text_total request_tier3000_is_notification);
    reflexivity.
Defined.

Lemma verify_signature_accepts_exactly_witness :
  verify_signature "s3cr3t" toy_digest request_tier3000 = true ↔
  signature_valid "s3cr3t" toy_digest request_tier3000 ∧
  ∃ given,
    headers request_tier3000 !! "Twitch-Eventsub-Message-Signature" = Some given ∧
    is_ascii given = true.
Proof. apply verify_signature_accepts_exactly. discriminate. Defined.

Lemma unhashable_broadcaster_raises_witness :
  handle_webhook "s3cr3t" toy_digest scalar_str request_list_broadcaster
    env_june world_may
  = (Raises TypeError, world_may).
Proof.
  apply (unhashable_broadcaster_raises "s3cr3t" toy_digest scalar_str
           request_list_broadcaster (VList [VInt 1]) (VStr "1000"));
    [|reflexivity].
  split; [reflexivity|]. split; [reflexivity|].
  eexists _, _. repeat split; reflexivity.
Defined.

Lemma blind_load_overwrites_durable_record_witness :
  bucket (handle_webhook "s3cr3t" toy_digest scalar_str request_tier3000
            env_june_blind world_restarted).2
    !! get_state_file scalar_str (VStr "u1")
  = Some (json_dumps (mkUserState (VFloat two_and_a_half) (VStr "2024-06"))).
Proof.
  apply (blind_load_overwrites_durable_record "s3cr3t" toy_digest scalar_str
           request_tier3000 "u1" (VStr "3000") env_june_blind world_restarted
           request_tier3000_is_notification);
    reflexivity.
Defined.

Lemma cached_user_never_reads_storage_witness :
  get_points scalar_str (Some "u1") (mkEnv "2024-06" false true) world_may
    = get_points scalar_str (Some "u1") (mkEnv "2024-06" true true) world_may ∧
  handle_webhook "s3cr3t" toy_digest scalar_str request_tier3000
    (mkEnv "2024-06" false true) world_may
    = handle_webhook "s3cr3t" toy_digest scalar_str request_tier3000
        (mkEnv "2024-06" true true) world_may ∧
  (∀ v value,
     set_points scalar_str v value (mkEnv "2024-06" false true) world_may
       = set_points scalar_str v value (mkEnv "2024-06" true true) world_may).
Proof.
  apply (cached_user_never_reads_storage "s3cr3t" toy_digest scalar_str
           request_tier3000 "u1" (VStr "3000")
           (mkUserState (VInt 7) (VStr "2024-05")) "2024-06" true world_may
           request_tier3000_is_notification);
    [discriminate|reflexivity].
Defined.

Lemma duplicate_delivery_counts_twice_witness :
  ∃ w1 w2 a,
    tier_amount (VStr "2000") = VInt a ∧
    handle_webhook "s3cr3t" toy_digest scalar_str request_tier2000
      env_june world_june
      = (Returns (PointsAdded (VInt a) (VStr "u1")), w1) ∧
    handle_webhook "s3cr3t" toy_digest scalar_str request_tier2000 env_june w1
      = (Returns (PointsAdded (VInt a) (VStr "u1")), w2) ∧
    user_states w2 !! KStr "u1"
      = Some (mkUserState (VInt (7 + a + a)) (VStr "2024-06")).
Proof.
  apply (duplicate_delivery_counts_twice "s3cr3t" toy_digest scalar_str
           request_tier2000 "u1" (VStr "2000") 7 env_june world_june);
    try reflexivity; try discriminate.
  split; [reflexivity|]. split; [reflexivity|].
  eexists _, _. repeat split; reflexivity.
Defined.

Lemma malformed_blob_degrades_to_default_witness :
  load_user_state scalar_str (VStr "u1") env_june world_garbage
  = (Returns (),
     mkWorld (<[KStr "u1" := mkUserState (VInt 0) (VStr "2024-06")]>
                (user_states world_garbage))
             (bucket world_garbage)).
Proof.
  apply (malformed_blob_degrades_to_default scalar_str "u1" Garbage env_june
           world_garbage); [reflexivity|reflexivity|discriminate].
Defined.


(** ** Scenarios of the specification, evaluated *)

(** A fresh user and a tier-2000 notification: 2 points under the current
    month, in the cache and in the bucket. *)
Example fresh_user_tier2000 :
  let w := (handle_webhook "s3cr3t" toy_digest scalar_str request_tier2000
              env_june empty_world).2 in
  user_states w !! KStr "u1" = Some (mkUserState (VInt 2) (VStr "2024-06")) ∧
  bucket w !! "state_u1.json"
    = Some (JsonText (VDict [("plus_points", VInt 2); ("month", VStr "2024-06")])).
Proof. split; reflexivity. Qed.

(** Two tier-3000 notifications in the same month: 5 points. *)
Example tier3000_twice :
  let handle :=
    handle_webhook "s3cr3t" toy_digest scalar_str request_tier3000 env_june in
  user_states (handle (handle empty_world).2).2 !! KStr "u1"
    = Some (mkUserState (VFloat (float_of_dyadic 5 0)) (VStr "2024-06")).
Proof. reflexivity. Qed.

(** With the storage down the record of May in the bucket is not seen: the
    user starts at 0 under the current month, and the failed save leaves
    the bucket as it was. *)
Example storage_down_degrades_to_default :
  let w := (handle_webhook "s3cr3t" toy_digest scalar_str request_tier3000
              env_june_offline world_restarted).2 in
  user_states w !! KStr "u1"
    = Some (mkUserState (VFloat two_and_a_half) (VStr "2024-06")) ∧
  bucket w = bucket world_restarted.
Proof. split; reflexivity. Qed.

(** A stored total that is not a number makes [+=] raise after the load:
    the cache entry stays, nothing is saved. *)
Example non_numeric_total_raises :
  let w0 := mkWorld ∅ {["state_u1.json" :=
              JsonText (VDict [("plus_points", VStr "seven");
                               ("month", VStr "2024-06")])]} in
  let r := handle_webhook "s3cr3t" toy_digest scalar_str request_tier3000
             env_june w0 in
  r.1 = Raises TypeError ∧
  user_states r.2 !! KStr "u1"
    = Some (mkUserState (VStr "seven") (VStr "2024-06")) ∧
  bucket r.2 = bucket w0.
Proof. repeat split; reflexivity. Qed.

(** ** The float model, evaluated *)

(** [two_and_a_half] is the binary64 nearest to 5 * 2^-1 and denotes 5/2. *)
Example two_and_a_half_is_2_5 :
  float_of_dyadic 5 (-1) = two_and_a_half ∧
  Qred <$> float_value two_and_a_half = Some (5 # 2)%Q.
Proof. split; reflexivity. Qed.

(** [(2**53 + 1) + 2.5] is [9007199254740994.0]: the conversion of the
    [int] and the sum are both rounded. *)
Example int_plus_float_rounds :
  py_add (VInt (2 ^ 53 + 1)) (VFloat two_and_a_half)
    = Returns (VFloat (float_of_dyadic 9007199254740994 0)).
Proof. reflexivity. Qed.

(** [10**400 + 2.5] raises [OverflowError]; [10**400 + 2] is an [int]. *)
Example huge_int_plus_float_overflows :
  py_add (VInt (10 ^ 400)) (VFloat two_and_a_half) = Raises OverflowError ∧
  py_add (VInt (10 ^ 400)) (VInt 2) = Returns (VInt (10 ^ 400 + 2)).
Proof. split; reflexivity. Qed.

(** The largest float added to itself is [inf], which no exception
    announces. *)
Example float_sum_overflows_to_infinity :
  let big := float_of_dyadic (2 ^ 53 - 1) 971 in
  py_add (VFloat big) (VFloat big) = Returns (VFloat (S754_infinity false)).
Proof. reflexivity. Qed.
